(** * Monitoring.py: analytic and alerting engine of the respiratory monitor

    A shallow embedding of [AdvancedPatientMonitor] and of
    [MonitoringGUI.check_measurement_alerts].

    - Python numbers are exact: an [int] is a [Z]; a number read from the
      JSON configuration or a [float] reading is the rational [Q] it
      denotes (every finite binary64 value is a rational and Python
      compares [int] with [float] exactly).
    - A method is an action of the monad [M]: it reads the environment
      ([World]: wall clock, sensors, SMTP server, random outlier model),
      threads the monitor object and returns a value or raises.  As in
      Python, what an action wrote before it raised stays written.
    - A [str] is a [text]: an f-string is kept as its template and the
      values interpolated in it; numbers are not rendered to digits.
    - [sklearn]'s [LinearRegression] is the closed-form least-squares line
      in exact arithmetic; the library computes it in binary64, so what the
      forecaster reports is also stated for any regression library and the
      values that it answers ([predict_deterioration_with]).
      [IsolationForest], which is randomised, is answered by the
      environment.
    - The SQLite tables are lists of rows.  An insert appends its row; the
      insert of a symptom whose severity is not a signed 64-bit integer
      raises [OverflowError]. *)

From Stdlib Require Import List ZArith QArith Qabs String Ascii Bool Lia Lqa Sorted.
Import ListNotations.

Local Open Scope string_scope.
Local Open Scope list_scope.
Local Open Scope Z_scope.

Set Warnings "-register-all".

(** ** Python values *)

Module Py.

(** [datetime.now()]: microseconds on the wall clock. *)
Definition Time := Z.

Definition Qltb (x y : Q) : bool := (Qnum x * QDen y <? Qnum y * QDen x)%Z.

Definition len {A} (l : list A) : Z := Z.of_nat (List.length l).

(** [l[start:]] *)
Definition slice_from {A} (start : Z) (l : list A) : list A :=
  let s := if start <? 0 then Z.max (len l + start) 0 else Z.min start (len l) in
  skipn (Z.to_nat s) l.

(** [l[i]]; [None] stands for [IndexError]. *)
Definition index {A} (i : Z) (l : list A) : option A :=
  let j := if i <? 0 then len l + i else i in
  if (0 <=? j) && (j <? len l) then nth_error l (Z.to_nat j) else None.

(** [np.arange(a, b)] *)
Definition arange (a b : Z) : list Z :=
  map (fun k => a + Z.of_nat k) (seq 0 (Z.to_nat (b - a))).

(** [str.lower()] on the letters [A]..[Z].  The three labels it is compared
    with below are made of the letters [a e f g i l m n o s t u x] only, and
    no character outside ASCII lowers to one of those, so the bytes of other
    characters can be left as they are. *)
Definition lower_ascii (c : ascii) : ascii :=
  let n := nat_of_ascii c in
  if ((65 <=? n) && (n <=? 90))%nat then ascii_of_nat (n + 32) else c.

Fixpoint lower (s : string) : string :=
  match s with
  | EmptyString => EmptyString
  | String c s' => String (lower_ascii c) (lower s')
  end.

(** [x in l] for a list of strings *)
Definition str_in (x : string) (l : list string) : bool :=
  existsb (String.eqb x) l.

Inductive exn : Type :=
| ValueError (msg : string)
| IndexError (msg : string)
| SMTPException (msg : string)
| OverflowError (msg : string).

Definition str_of_exn (e : exn) : string :=
  match e with
  | ValueError m | IndexError m | SMTPException m | OverflowError m => m
  end.

(** A [str] value.  An f-string is kept as its template, [{}] at each
    hole, with the values interpolated in it. *)
Inductive text : Type :=
| Lit (s : string)
| Int (n : Z)
| Num (q : Q)
| Tm (t : Time)
| Fmt (template : string) (holes : list text).

End Py.
Import Py.

(** ** Data model *)

Record Thresholds : Type := {
  spo2_low : Q;
  heart_rate_high : Q;
  respiratory_rate_high : Q;
  temperature_high : Q
}.

Record EmailAlerts : Type := {
  enabled : bool;
  smtp_server : string;
  smtp_port : Z;
  sender_email : string;
  sender_password : string;
  recipient_emails : list string
}.

Record PredictionSettings : Type := {
  window_size : Z;
  forecast_hours : Z
}.

Record Config : Type := {
  alert_thresholds : Thresholds;
  email_alerts : EmailAlerts;
  prediction_settings : PredictionSettings
}.

(** The configuration [load_config] falls back to. *)
Definition default_config : Config := {|
  alert_thresholds := {| spo2_low := 92; heart_rate_high := 110;
                         respiratory_rate_high := 25; temperature_high := 38 |};
  email_alerts := {| enabled := false; smtp_server := "smtp.gmail.com";
                     smtp_port := 587; sender_email := "";
                     sender_password := ""; recipient_emails := [] |};
  prediction_settings := {| window_size := 10; forecast_hours := 6 |}
|}.

(** The dict returned by [read_sensor_data]. *)
Record Reading : Type := {
  r_spo2 : Z;
  r_heart_rate : Z;
  r_respiratory_rate : Z;
  r_temperature : Q;
  r_systolic_bp : Z;
  r_diastolic_bp : Z;
  r_activity_level : string
}.

(** The same dict once [simulate_measurement] has added its ['time'] key. *)
Record Measurement : Type := {
  m_time : Time;
  m_spo2 : Z;
  m_heart_rate : Z;
  m_respiratory_rate : Z;
  m_temperature : Q;
  m_systolic_bp : Z;
  m_diastolic_bp : Z;
  m_activity_level : string
}.

Record SymptomEntry : Type := {
  s_timestamp : Time;
  s_symptom : string;
  s_severity : Z;
  s_notes : string
}.

Record Alert : Type := {
  a_timestamp : Time;
  a_type : string;
  a_message : text;
  a_severity : string
}.

(** [self.data]: one list per channel. *)
Record Data : Type := {
  timestamp : list Time;
  spo2 : list Z;
  heart_rate : list Z;
  respiratory_rate : list Z;
  temperature : list Q;
  systolic_bp : list Z;
  diastolic_bp : list Z;
  symptoms : list text;
  activity_level : list string
}.

(** The three SQLite tables, as the rows inserted so far. *)
Record Database : Type := {
  t_measurements : list Measurement;
  t_symptoms : list SymptomEntry;
  t_alerts : list Alert
}.

Record Monitor : Type := {
  patient_id : string;
  patient_name : string;
  config : Config;
  data : Data;
  symptom_log : list SymptomEntry;
  alerts : list Alert;
  db : Database;
  stdout : list text;
  (** number of calls made to the environment so far *)
  epoch : nat
}.

(** The environment, indexed by the number of earlier calls. *)
Record World : Type := {
  (** [datetime.now()] *)
  w_clock : nat -> Time;
  (** the random draws of [read_sensor_data] *)
  w_sensor : nat -> Reading;
  (** the SMTP session of [send_email_alert]: [None] when the mail went out,
      the exception otherwise *)
  w_smtp : nat -> option exn;
  (** [IsolationForest(contamination=c).fit(X).predict(X)]: one label, [1] or
      [-1], per row; the forest draws its own random state *)
  w_isolation_forest : nat -> Q -> list (Z * Z * Z) -> list Z
}.

(** ** The monad of methods *)

Inductive Res (A : Type) : Type :=
| Ok (a : A)
| Raise (e : exn).
Arguments Ok {A} a.
Arguments Raise {A} e.

Definition M (A : Type) : Type := World -> Monitor -> Res A * Monitor.

Definition ret {A} (a : A) : M A := fun _ st => (Ok a, st).

Definition bind {A B} (c : M A) (k : A -> M B) : M B :=
  fun w st =>
    match c w st with
    | (Ok a, st') => k a w st'
    | (Raise e, st') => (Raise e, st')
    end.

Definition raise {A} (e : exn) : M A := fun _ st => (Raise e, st).

(** [try: c except Exception as e: h e] *)
Definition try_except {A} (c : M A) (h : exn -> M A) : M A :=
  fun w st =>
    match c w st with
    | (Ok a, st') => (Ok a, st')
    | (Raise e, st') => h e w st'
    end.

Definition get : M Monitor := fun _ st => (Ok st, st).
Definition modify (f : Monitor -> Monitor) : M unit := fun _ st => (Ok tt, f st).

Declare Scope monad_scope.
Delimit Scope monad_scope with monad.
Notation "x <- c1 ;; c2" := (bind c1 (fun x => c2))
  (at level 61, c1 at next level, right associativity) : monad_scope.
Notation "c1 ;; c2" := (bind c1 (fun _ => c2))
  (at level 61, right associativity) : monad_scope.
Local Open Scope monad_scope.

(** The final object and the outcome of running a method. *)
Definition exec {A} (c : M A) (w : World) (st : Monitor) : Monitor := snd (c w st).
Definition result {A} (c : M A) (w : World) (st : Monitor) : Res A := fst (c w st).

(** *** Field updates *)

Definition set_data (f : Data -> Data) (st : Monitor) : Monitor :=
  {| patient_id := patient_id st; patient_name := patient_name st;
     config := config st; data := f (data st); symptom_log := symptom_log st;
     alerts := alerts st; db := db st; stdout := stdout st; epoch := epoch st |}.

Definition set_symptom_log (f : list SymptomEntry -> list SymptomEntry)
    (st : Monitor) : Monitor :=
  {| patient_id := patient_id st; patient_name := patient_name st;
     config := config st; data := data st; symptom_log := f (symptom_log st);
     alerts := alerts st; db := db st; stdout := stdout st; epoch := epoch st |}.

Definition set_alerts (f : list Alert -> list Alert) (st : Monitor) : Monitor :=
  {| patient_id := patient_id st; patient_name := patient_name st;
     config := config st; data := data st; symptom_log := symptom_log st;
     alerts := f (alerts st); db := db st; stdout := stdout st; epoch := epoch st |}.

Definition set_db (f : Database -> Database) (st : Monitor) : Monitor :=
  {| patient_id := patient_id st; patient_name := patient_name st;
     config := config st; data := data st; symptom_log := symptom_log st;
     alerts := alerts st; db := f (db st); stdout := stdout st; epoch := epoch st |}.

Definition set_stdout (f : list text -> list text) (st : Monitor) : Monitor :=
  {| patient_id := patient_id st; patient_name := patient_name st;
     config := config st; data := data st; symptom_log := symptom_log st;
     alerts := alerts st; db := db st; stdout := f (stdout st); epoch := epoch st |}.

Definition set_config (c : Config) (st : Monitor) : Monitor :=
  {| patient_id := patient_id st; patient_name := patient_name st;
     config := c; data := data st; symptom_log := symptom_log st;
     alerts := alerts st; db := db st; stdout := stdout st; epoch := epoch st |}.

Definition tick (st : Monitor) : Monitor :=
  {| patient_id := patient_id st; patient_name := patient_name st;
     config := config st; data := data st; symptom_log := symptom_log st;
     alerts := alerts st; db := db st; stdout := stdout st; epoch := S (epoch st) |}.

(** *** The environment *)

(** [datetime.now()] *)
Definition now : M Time := fun w st => (Ok (w_clock w (epoch st)), tick st).

(** [print(s)] *)
Definition print (s : text) : M unit := modify (set_stdout (fun out => out ++ [s])).

(** The [with smtplib.SMTP(...) as server:] block of [send_email_alert]. *)
Definition smtp_session : M unit :=
  fun w st =>
    match w_smtp w (epoch st) with
    | None => (Ok tt, tick st)
    | Some e => (Raise e, tick st)
    end.

(** ** The library models *)

Definition lift {A} (r : Res A) : M A := fun _ st => (r, st).

Definition Qsum (l : list Q) : Q := fold_right Qplus 0%Q l.

Definition Qmean (l : list Q) : Q := (Qsum l / inject_Z (len l))%Q.

(** [sklearn.linear_model.LinearRegression] on one feature, in exact
    arithmetic: the feature and the target are centred on their means and
    the slope is the least-squares solution of the centred system, the
    minimum-norm one ([0]) when every abscissa is the same ([x / 0] is [0]
    in [Q]).  Both [fit] and [predict] refuse an array without a row.
    The library itself computes in binary64, so its values are these up to
    rounding: a value that is exactly the threshold here may come out just
    below it there.  What the forecaster reports is therefore also stated
    for any regression library, see [Estimator] and
    [predict_deterioration_with]. *)
Module LinearRegression.

Record t : Type := { coef_ : Q; intercept_ : Q }.

Definition sxx (xs : list Q) : Q :=
  let mx := Qmean xs in
  Qsum (map (fun x => (x - mx) * (x - mx))%Q xs).

Definition sxy (xs ys : list Q) : Q :=
  let mx := Qmean xs in
  let my := Qmean ys in
  Qsum (map (fun p => (fst p - mx) * (snd p - my))%Q (combine xs ys)).

Definition solve (xs ys : list Q) : t :=
  let a := (sxy xs ys / sxx xs)%Q in
  {| coef_ := a; intercept_ := (Qmean ys - a * Qmean xs)%Q |}.

Definition no_sample : exn :=
  ValueError "Found array with 0 sample(s) while a minimum of 1 is required.".

Definition fit (X : list Z) (y : list Z) : Res t :=
  match X with
  | [] => Raise no_sample
  | _ :: _ => Ok (solve (map inject_Z X) (map inject_Z y))
  end.

Definition line (m : t) (x : Q) : Q := (coef_ m * x + intercept_ m)%Q.

Definition predict (m : t) (X : list Z) : Res (list Q) :=
  match X with
  | [] => Raise no_sample
  | _ :: _ => Ok (map (fun x => line m (inject_Z x)) X)
  end.

End LinearRegression.

(** [np.array([a, b, c]).T]: the rows [(a[i], b[i], c[i])]; NumPy refuses
    lists of unequal lengths. *)
Definition np_array_T (a b c : list Z) : Res (list (Z * Z * Z)) :=
  if (List.length a =? List.length b)%nat && (List.length b =? List.length c)%nat
  then Ok (combine (combine a b) c)
  else Raise (ValueError "setting an array element with a sequence.").

(** [IsolationForest(contamination=c)] fitted on [X] and asked to label
    [X]: answered by the environment. *)
Definition isolation_forest (c : Q) (X : list (Z * Z * Z)) : M (list Z) :=
  fun w st => (Ok (w_isolation_forest w (epoch st) c X), tick st).

(** ** AdvancedPatientMonitor *)

(** [save_measurement]: one row more in [measurements].  The numbers bound
    here are the draws of [read_sensor_data], which SQLite can store. *)
Definition save_measurement (m : Measurement) : M unit :=
  modify (set_db (fun d =>
    {| t_measurements := t_measurements d ++ [m];
       t_symptoms := t_symptoms d; t_alerts := t_alerts d |})).

(** An [int] that SQLite can store: its INTEGER is a signed 64-bit. *)
Definition sqlite_int (n : Z) : bool := (- 2 ^ 63 <=? n) && (n <? 2 ^ 63).

(** [save_symptom]: one row more in [symptoms].  [sqlite3] refuses to bind
    a severity that is not a signed 64-bit integer, and the insert raises. *)
Definition save_symptom (e : SymptomEntry) : M unit :=
  if sqlite_int (s_severity e) then
    modify (set_db (fun d =>
      {| t_measurements := t_measurements d;
         t_symptoms := t_symptoms d ++ [e]; t_alerts := t_alerts d |}))
  else raise (OverflowError "Python int too large to convert to SQLite INTEGER").

Definition save_alert (alert_type : string) (message : text) (severity : string)
    : M unit :=
  timestamp <- now ;;
  let a := {| a_timestamp := timestamp; a_type := alert_type;
              a_message := message; a_severity := severity |} in
  modify (set_db (fun d =>
    {| t_measurements := t_measurements d;
       t_symptoms := t_symptoms d; t_alerts := t_alerts d ++ [a] |})) ;;
  modify (set_alerts (fun l => l ++ [a])).

Definition read_sensor_data : M Reading :=
  fun w st => (Ok (w_sensor w (epoch st)), tick st).

Definition stamp (t : Time) (r : Reading) : Measurement :=
  {| m_time := t; m_spo2 := r_spo2 r; m_heart_rate := r_heart_rate r;
     m_respiratory_rate := r_respiratory_rate r;
     m_temperature := r_temperature r; m_systolic_bp := r_systolic_bp r;
     m_diastolic_bp := r_diastolic_bp r;
     m_activity_level := r_activity_level r |}.

(** The eight [self.data[...].append(...)] of [simulate_measurement]. *)
Definition append_measurement (m : Measurement) (d : Data) : Data :=
  {| timestamp := timestamp d ++ [m_time m];
     spo2 := spo2 d ++ [m_spo2 m];
     heart_rate := heart_rate d ++ [m_heart_rate m];
     respiratory_rate := respiratory_rate d ++ [m_respiratory_rate m];
     temperature := temperature d ++ [m_temperature m];
     systolic_bp := systolic_bp d ++ [m_systolic_bp m];
     diastolic_bp := diastolic_bp d ++ [m_diastolic_bp m];
     symptoms := symptoms d;
     activity_level := activity_level d ++ [m_activity_level m] |}.

Definition simulate_measurement : M Measurement :=
  reading <- read_sensor_data ;;
  current_time <- now ;;
  let measurement := stamp current_time reading in
  modify (set_data (append_measurement measurement)) ;;
  save_measurement measurement ;;
  ret measurement.

(** [send_email_alert]: the whole body sits in [try ... except Exception]. *)
Definition send_email_alert (message : text) (severity : string) : M unit :=
  try_except
    (st <- get ;;
     let cfg := email_alerts (config st) in
     if (sender_email cfg =? "")%string
        || match recipient_emails cfg with [] => true | _ :: _ => false end
     then ret tt
     else
       _ <- now ;;
       smtp_session ;;
       print (Lit "📧 Email d'alerte envoyé avec succès"))
    (fun e =>
       print (Fmt "❌ Erreur lors de l'envoi de l'email: {}" [Lit (str_of_exn e)])).

Definition classify (alert_type : string) : string :=
  if (alert_type =? "exacerbation")%string then "high" else "medium".

Definition send_alert (alert_type : string) (message : text) : M unit :=
  let severity := classify alert_type in
  save_alert alert_type message severity ;;
  t <- now ;;
  print (Fmt "🔴 ALERTE: {} - {}" [message; Tm t]) ;;
  st <- get ;;
  if enabled (email_alerts (config st))
  then send_email_alert message severity
  else ret tt.

Definition respiratory_symptoms : list string :=
  ["essoufflement"; "toux"; "fatigue"].

Definition check_exacerbation (symptom_entry : SymptomEntry) : M bool :=
  st <- get ;;
  if len (spo2 (data st)) >? 0 then
    match index (-1) (spo2 (data st)) with
    | None => raise (IndexError "list index out of range")
    | Some latest_spo2 =>
        if str_in (lower (s_symptom symptom_entry)) respiratory_symptoms
           && (s_severity symptom_entry >=? 7) && (latest_spo2 <? 92)
        then
          send_alert "exacerbation" (Lit "Signes d'exacerbation possible") ;;
          ret true
        else ret false
    end
  else ret false.

Definition log_symptom (symptom : string) (severity : Z) (notes : string)
    : M SymptomEntry :=
  t <- now ;;
  let entry := {| s_timestamp := t; s_symptom := symptom;
                  s_severity := severity; s_notes := notes |} in
  modify (set_symptom_log (fun l => l ++ [entry])) ;;
  modify (set_data (fun d =>
    {| timestamp := timestamp d; spo2 := spo2 d; heart_rate := heart_rate d;
       respiratory_rate := respiratory_rate d; temperature := temperature d;
       systolic_bp := systolic_bp d; diastolic_bp := diastolic_bp d;
       symptoms := symptoms d ++ [Fmt "{} (severity: {})" [Lit symptom; Int severity]];
       activity_level := activity_level d |})) ;;
  save_symptom entry ;;
  _ <- check_exacerbation entry ;;
  ret entry.

Definition insufficient_for_prediction : text :=
  Lit "Données insuffisantes pour la prédiction".

Definition deterioration (hours : Z) (threshold : Q) : text :=
  Fmt "Détérioration prévue dans les {} heures. SpO2 pourrait descendre sous {}%"
      [Int hours; Num threshold].

Definition no_deterioration : text :=
  Lit "Aucune détérioration significative prévue".

Definition predict_deterioration (hours : Z) : M text :=
  st <- get ;;
  let window_size := window_size (prediction_settings (config st)) in
  if len (spo2 (data st)) <? window_size then ret insufficient_for_prediction
  else
    let spo2_data := slice_from (- window_size) (spo2 (data st)) in
    let X := arange 0 (len spo2_data) in
    let y := spo2_data in
    model <- lift (LinearRegression.fit X y) ;;
    let future_X := arange (len spo2_data) (len spo2_data + hours) in
    predictions <- lift (LinearRegression.predict model future_X) ;;
    let threshold := spo2_low (alert_thresholds (config st)) in
    if existsb (fun pred => Qltb pred threshold) predictions
    then ret (deterioration hours threshold)
    else ret no_deterioration.

Definition insufficient_for_anomalies : text :=
  Lit "Données insuffisantes pour la détection d'anomalies".

Definition anomalies_detected (anomaly_count : Z) : text :=
  Fmt "{} anomalies détectées dans les signes vitaux" [Int anomaly_count].

Definition no_anomaly : text := Lit "Aucune anomalie détectée".

(** [sum(predictions == -1)] *)
Definition count_outliers (predictions : list Z) : Z :=
  len (filter (fun p => p =? -1) predictions).

Definition detect_anomalies : M text :=
  st <- get ;;
  if len (spo2 (data st)) <? 10 then ret insufficient_for_anomalies
  else
    vital_data <- lift (np_array_T (slice_from (-10) (spo2 (data st)))
                                   (slice_from (-10) (heart_rate (data st)))
                                   (slice_from (-10) (respiratory_rate (data st)))) ;;
    predictions <- isolation_forest (1 # 10) vital_data ;;
    let anomaly_count := count_outliers predictions in
    if anomaly_count >? 2 then ret (anomalies_detected anomaly_count)
    else ret no_anomaly.

(** ** MonitoringGUI *)

(** [check_measurement_alerts]; its last statement redraws the alert widget
    from [monitor.alerts] and writes nothing to the monitor. *)
Definition check_measurement_alerts (measurement : Measurement) : M unit :=
  st <- get ;;
  let thresholds := alert_thresholds (config st) in
  (if Qltb (inject_Z (m_spo2 measurement)) (spo2_low thresholds)
   then send_alert "spo2_low" (Fmt "SpO2 basse: {}%" [Int (m_spo2 measurement)])
   else ret tt) ;;
  (if Qltb (heart_rate_high thresholds) (inject_Z (m_heart_rate measurement))
   then send_alert "heart_rate_high"
          (Fmt "Tachycardie: {} bpm" [Int (m_heart_rate measurement)])
   else ret tt) ;;
  (if Qltb (respiratory_rate_high thresholds)
           (inject_Z (m_respiratory_rate measurement))
   then send_alert "respiratory_rate_high"
          (Fmt "Tachypnée: {} rpm" [Int (m_respiratory_rate measurement)])
   else ret tt) ;;
  (if Qltb (temperature_high thresholds) (m_temperature measurement)
   then send_alert "temperature_high"
          (Fmt "Fièvre: {} °C" [Num (m_temperature measurement)])
   else ret tt).

(** [take_measurement], without the redrawing of the labels. *)
Definition take_measurement : M unit :=
  measurement <- simulate_measurement ;;
  check_measurement_alerts measurement.

(** * Vocabulary of the properties *)

(** What a method may change besides the console and the count of calls
    to the environment: [same_object st st'] says it changed nothing. *)
Definition same_object (st st' : Monitor) : Prop :=
  patient_id st' = patient_id st /\ patient_name st' = patient_name st /\
  config st' = config st /\ data st' = data st /\
  symptom_log st' = symptom_log st /\ alerts st' = alerts st /\ db st' = db st.

(** The Alert that [save_alert] builds at time [t]. *)
Definition mk_alert (t : Time) (alert_type : string) (message : text) : Alert :=
  {| a_timestamp := t; a_type := alert_type;
     a_message := message; a_severity := classify alert_type |}.

(** [appended new st st']: from [st] to [st'] the Alerts [new], and nothing
    else, were appended to the table and to the list, in this order. *)
Definition appended (new : list Alert) (st st' : Monitor) : Prop :=
  alerts st' = alerts st ++ new /\
  t_alerts (db st') = t_alerts (db st) ++ new /\
  t_measurements (db st') = t_measurements (db st) /\
  t_symptoms (db st') = t_symptoms (db st) /\
  config st' = config st /\ data st' = data st /\
  symptom_log st' = symptom_log st.

(** The alert types appended by one call of [check_measurement_alerts]. *)
Definition fired_conditions (measurement : Measurement) (w : World)
    (st : Monitor) : list string :=
  map a_type (skipn (List.length (alerts st))
                    (alerts (exec (check_measurement_alerts measurement) w st))).

(** The last [n] elements of a list. *)
Definition last_n {A} (n : nat) (l : list A) : list A :=
  skipn (List.length l - n) l.

(** The object built by [__init__], with empty tables. *)
Definition empty_data : Data :=
  {| timestamp := []; spo2 := []; heart_rate := []; respiratory_rate := [];
     temperature := []; systolic_bp := []; diastolic_bp := []; symptoms := [];
     activity_level := [] |}.

Definition new_monitor (c : Config) : Monitor :=
  {| patient_id := "PAT123"; patient_name := "Jean Dupont"; config := c;
     data := empty_data; symptom_log := []; alerts := [];
     db := {| t_measurements := []; t_symptoms := []; t_alerts := [] |};
     stdout := []; epoch := 0 |}.

(** [n] calls of [simulate_measurement] in a row. *)
Fixpoint measure (n : nat) : M unit :=
  match n with
  | O => ret tt
  | S k => (_ <- simulate_measurement ;; measure k)%monad
  end.

(** *** Environments and configurations of the examples *)

Definition reading_of (s : Z) : Reading :=
  {| r_spo2 := s; r_heart_rate := 72; r_respiratory_rate := 16;
     r_temperature := 37; r_systolic_bp := 120; r_diastolic_bp := 80;
     r_activity_level := "repos" |}.

(** The sensor reads the spo2 values [l] one after the other (a measurement
    makes two calls to the environment), the clock shows the number of calls
    made, the mail server is down and the forest labels [marks]. *)
Definition script (l : list Z) (marks : list Z) : World :=
  {| w_clock := fun k => Z.of_nat k;
     w_sensor := fun k => reading_of (nth (Nat.div2 k) l 95);
     w_smtp := fun _ => Some (SMTPException "Connection refused");
     w_isolation_forest := fun _ _ _ => marks |}.

(** The monitor after the spo2 readings [l], under the configuration [c]. *)
Definition after_readings (c : Config) (l : list Z) : Monitor :=
  exec (measure (List.length l)) (script l []) (new_monitor c).

Definition with_thresholds (t : Thresholds) (c : Config) : Config :=
  {| alert_thresholds := t; email_alerts := email_alerts c;
     prediction_settings := prediction_settings c |}.

Definition with_email (e : EmailAlerts) (c : Config) : Config :=
  {| alert_thresholds := alert_thresholds c; email_alerts := e;
     prediction_settings := prediction_settings c |}.

Definition with_window_size (n : Z) (c : Config) : Config :=
  {| alert_thresholds := alert_thresholds c; email_alerts := email_alerts c;
     prediction_settings :=
       {| window_size := n;
          forecast_hours := forecast_hours (prediction_settings c) |} |}.

Definition with_forecast_hours (n : Z) (c : Config) : Config :=
  {| alert_thresholds := alert_thresholds c; email_alerts := email_alerts c;
     prediction_settings :=
       {| window_size := window_size (prediction_settings c);
          forecast_hours := n |} |}.

(** Mail switched on, with a sender and one recipient. *)
Definition mailing : EmailAlerts :=
  {| enabled := true; smtp_server := "smtp.gmail.com"; smtp_port := 587;
     sender_email := "moniteur@hopital.example"; sender_password := "secret";
     recipient_emails := ["medecin@hopital.example"] |}.

(** A configuration whose spo2 threshold is not the default 92. *)
Definition strict_thresholds : Thresholds :=
  {| spo2_low := 90; heart_rate_high := 110; respiratory_rate_high := 25;
     temperature_high := 38 |}.

(** A reading that breaks the four default thresholds. *)
Definition alarming : Measurement :=
  {| m_time := 0; m_spo2 := 90; m_heart_rate := 120; m_respiratory_rate := 30;
     m_temperature := 385 # 10; m_systolic_bp := 150; m_diastolic_bp := 95;
     m_activity_level := "repos" |}.

(** The measurements taken by [n] calls of [simulate_measurement] started
    after [e] calls to the environment: each reads the sensor, then the
    clock. *)
Fixpoint readings_from (w : World) (e n : nat) : list Measurement :=
  match n with
  | O => []
  | S k => stamp (w_clock w (S e)) (w_sensor w e) :: readings_from w (S (S e)) k
  end.



(** A clock that runs backwards. *)
Definition backwards (w : World) : World :=
  {| w_clock := fun k => 100 - Z.of_nat k; w_sensor := w_sensor w;
     w_smtp := w_smtp w; w_isolation_forest := w_isolation_forest w |}.

(** The sum of the squared residuals of the line [y = a x + b] on the
    points [(xs[i], ys[i])]: what an ordinary least-squares fit minimises. *)
Definition sse (a b : Q) (xs ys : list Q) : Q :=
  Qsum (map (fun p => (snd p - (a * fst p + b)) * (snd p - (a * fst p + b)))%Q
            (combine xs ys)).

(** * The rest of the monitor *)

(** ** The report and the alert panel *)

Definition no_data_for_period : text :=
  Lit "Aucune donnée disponible pour cette période".

Definition list_min (x : Z) (l : list Z) : Z := fold_left Z.min l x.
Definition list_max (x : Z) (l : list Z) : Z := fold_left Z.max l x.

(** [df['c'].min()] and [df['c'].max()] of a frame with a row at least. *)
Definition column_min (c : Measurement -> Z) (first : Measurement)
    (others : list Measurement) : Q :=
  inject_Z (list_min (c first) (map c others)).
Definition column_max (c : Measurement -> Z) (first : Measurement)
    (others : list Measurement) : Q :=
  inject_Z (list_max (c first) (map c others)).

(** [df['c'].mean()] *)
Definition column_mean (c : Measurement -> Q) (df : list Measurement) : Q :=
  Qmean (map c df).

(** [len(df[df['spo2'] < threshold])] *)
Definition desaturation_episodes (threshold : Q) (df : list Measurement) : Z :=
  len (filter (fun m => Qltb (inject_Z (m_spo2 m)) threshold) df).

Definition report_template : string :=
  "
📊 RAPPORT COMPLET - {}
Période: {} heures
----------------------------------------
Valeurs moyennes:
- SpO2: {:.1f}%
- Fréquence cardiaque: {:.1f} bpm
- Fréquence respiratoire: {:.1f} rpm
- Température: {:.1f} °C
- Pression artérielle: {:.1f}/{:.1f} mmHg

Valeurs extrêmes:
- SpO2 min: {}%
- SpO2 max: {}%
- FC max: {} bpm
- FR max: {} rpm

Épisodes de désaturation (SpO2 < {}%): {}

Analyse de prédiction:
{}

Détection d'anomalies:
{}
        ".

(** [generate_comprehensive_report], from the frame [df] that
    [pd.read_sql_query] returned for the period: the rows of the
    measurements table of the last [hours] hours.  The holes of the f-string
    are evaluated from left to right, the forecaster, called with its
    default horizon, before the scorer. *)
Definition generate_comprehensive_report (df : list Measurement) (hours : Z)
    : M text :=
  match df with
  | [] => ret no_data_for_period
  | first :: others =>
      st <- get ;;
      let threshold := spo2_low (alert_thresholds (config st)) in
      prediction <- predict_deterioration 6 ;;
      anomalies <- detect_anomalies ;;
      ret (Fmt report_template
             [Lit (patient_name st); Int hours;
              Num (column_mean (fun m => inject_Z (m_spo2 m)) df);
              Num (column_mean (fun m => inject_Z (m_heart_rate m)) df);
              Num (column_mean (fun m => inject_Z (m_respiratory_rate m)) df);
              Num (column_mean m_temperature df);
              Num (column_mean (fun m => inject_Z (m_systolic_bp m)) df);
              Num (column_mean (fun m => inject_Z (m_diastolic_bp m)) df);
              Num (column_min m_spo2 first others);
              Num (column_max m_spo2 first others);
              Num (column_max m_heart_rate first others);
              Num (column_max m_respiratory_rate first others);
              Num threshold;
              Int (desaturation_episodes threshold df);
              prediction; anomalies])
  end.

(** [update_alert_display]: the lines of the alert panel once it has been
    cleared and filled again. *)
Definition update_alert_display (st : Monitor) : list text :=
  match alerts st with
  | [] => [Lit "Aucune alerte pour le moment"]
  | _ :: _ =>
      map (fun alert => Fmt "{:%H:%M:%S} - {}"
                            [Tm (a_timestamp alert); a_message alert])
          (slice_from (-5) (alerts st))
  end.

(** ** Sequences of calls *)

(** The methods that the application calls on a monitor. *)
Inductive Call : Type :=
| SimulateMeasurement
| LogSymptom (symptom : string) (severity : Z) (notes : string)
| CheckMeasurementAlerts (measurement : Measurement)
| TakeMeasurement
| PredictDeterioration (hours : Z)
| DetectAnomalies
| GenerateReport (df : list Measurement) (hours : Z).

Definition perform (c : Call) : M unit :=
  match c with
  | SimulateMeasurement => _ <- simulate_measurement ;; ret tt
  | LogSymptom symptom severity notes =>
      _ <- log_symptom symptom severity notes ;; ret tt
  | CheckMeasurementAlerts measurement => check_measurement_alerts measurement
  | TakeMeasurement => take_measurement
  | PredictDeterioration hours => _ <- predict_deterioration hours ;; ret tt
  | DetectAnomalies => _ <- detect_anomalies ;; ret tt
  | GenerateReport df hours => _ <- generate_comprehensive_report df hours ;; ret tt
  end.

(** The monitor after the calls [cs], made one after the other; a call that
    raises leaves the monitor as it was when it raised, and the next call
    goes on from there. *)
Definition run (cs : list Call) (w : World) (st : Monitor) : Monitor :=
  fold_left (fun s c => exec (perform c) w s) cs st.

(** ** Vocabulary of the further properties *)

(** What a sequence of calls appended. *)
Record Delta : Type := {
  d_measurements : list Measurement;
  d_symptoms : list SymptomEntry;
  d_alerts : list Alert
}.

Definition no_delta : Delta :=
  {| d_measurements := []; d_symptoms := []; d_alerts := [] |}.

Definition delta_app (d1 d2 : Delta) : Delta :=
  {| d_measurements := d_measurements d1 ++ d_measurements d2;
     d_symptoms := d_symptoms d1 ++ d_symptoms d2;
     d_alerts := d_alerts d1 ++ d_alerts d2 |}.

(** The line that [log_symptom] adds to [data['symptoms']]. *)
Definition symptom_line (e : SymptomEntry) : text :=
  Fmt "{} (severity: {})" [Lit (s_symptom e); Int (s_severity e)].

(** The channels [d'] are the channels [d] followed by the readings [ms]. *)
Definition channels_grow (ms : list Measurement) (d d' : Data) : Prop :=
  timestamp d' = timestamp d ++ map m_time ms /\
  spo2 d' = spo2 d ++ map m_spo2 ms /\
  heart_rate d' = heart_rate d ++ map m_heart_rate ms /\
  respiratory_rate d' = respiratory_rate d ++ map m_respiratory_rate ms /\
  temperature d' = temperature d ++ map m_temperature ms /\
  systolic_bp d' = systolic_bp d ++ map m_systolic_bp ms /\
  diastolic_bp d' = diastolic_bp d ++ map m_diastolic_bp ms /\
  activity_level d' = activity_level d ++ map m_activity_level ms.

(** [grows d st st']: from [st] to [st'] the identity and the configuration
    were left alone, and the measurements, symptoms and alerts of [d], and
    nothing else, were appended, each to its list in memory and to its table. *)
Definition grows (d : Delta) (st st' : Monitor) : Prop :=
  patient_id st' = patient_id st /\ patient_name st' = patient_name st /\
  config st' = config st /\
  channels_grow (d_measurements d) (data st) (data st') /\
  symptoms (data st') = symptoms (data st) ++ map symptom_line (d_symptoms d) /\
  symptom_log st' = symptom_log st ++ d_symptoms d /\
  alerts st' = alerts st ++ d_alerts d /\
  t_measurements (db st') = t_measurements (db st) ++ d_measurements d /\
  t_symptoms (db st') = t_symptoms (db st) ++ d_symptoms d /\
  t_alerts (db st') = t_alerts (db st) ++ d_alerts d.

(** The measurement channels have the same number of samples. *)
Definition aligned (st : Monitor) : Prop :=
  let n := List.length (spo2 (data st)) in
  List.length (timestamp (data st)) = n /\
  List.length (heart_rate (data st)) = n /\
  List.length (respiratory_rate (data st)) = n /\
  List.length (temperature (data st)) = n /\
  List.length (systolic_bp (data st)) = n /\
  List.length (diastolic_bp (data st)) = n /\
  List.length (activity_level (data st)) = n.

(** The symptom entries whose row the symptoms table accepts. *)
Definition stored (es : list SymptomEntry) : list SymptomEntry :=
  filter (fun e => sqlite_int (s_severity e)) es.

(** [appends d st st']: as [grows d st st'], but of the symptoms of [d] the
    table gets the rows that it accepts only. *)
Definition appends (d : Delta) (st st' : Monitor) : Prop :=
  patient_id st' = patient_id st /\ patient_name st' = patient_name st /\
  config st' = config st /\
  channels_grow (d_measurements d) (data st) (data st') /\
  symptoms (data st') = symptoms (data st) ++ map symptom_line (d_symptoms d) /\
  symptom_log st' = symptom_log st ++ d_symptoms d /\
  alerts st' = alerts st ++ d_alerts d /\
  t_measurements (db st') = t_measurements (db st) ++ d_measurements d /\
  t_symptoms (db st') = t_symptoms (db st) ++ stored (d_symptoms d) /\
  t_alerts (db st') = t_alerts (db st) ++ d_alerts d.

(** Memory and store in step: the channels and the alert list are the
    columns of their tables, the symptom lines are those of the symptom
    log, and the symptoms table holds the entries of the log that it
    accepted. *)
Definition in_step_with_store (st : Monitor) : Prop :=
  timestamp (data st) = map m_time (t_measurements (db st)) /\
  spo2 (data st) = map m_spo2 (t_measurements (db st)) /\
  heart_rate (data st) = map m_heart_rate (t_measurements (db st)) /\
  respiratory_rate (data st) = map m_respiratory_rate (t_measurements (db st)) /\
  temperature (data st) = map m_temperature (t_measurements (db st)) /\
  systolic_bp (data st) = map m_systolic_bp (t_measurements (db st)) /\
  diastolic_bp (data st) = map m_diastolic_bp (t_measurements (db st)) /\
  activity_level (data st) = map m_activity_level (t_measurements (db st)) /\
  symptoms (data st) = map symptom_line (symptom_log st) /\
  t_symptoms (db st) = stored (symptom_log st) /\
  alerts st = t_alerts (db st).

(** The alert types that the code sends. *)
Definition sent_types : list string :=
  ["spo2_low"; "heart_rate_high"; "respiratory_rate_high"; "temperature_high";
   "exacerbation"].

(** An Alert as the code builds them: of a type it sends, "high" for an
    exacerbation and "medium" otherwise. *)
Definition well_formed_alert (a : Alert) : Prop :=
  In (a_type a) sent_types /\
  a_severity a = (if (a_type a =? "exacerbation")%string then "high" else "medium").

(** The alert types fired by the reading [m] under the thresholds [th], in
    the order of the four tests. *)
Definition conditions_of (th : Thresholds) (m : Measurement) : list string :=
  (if Qltb (inject_Z (m_spo2 m)) (spo2_low th) then ["spo2_low"] else []) ++
  (if Qltb (heart_rate_high th) (inject_Z (m_heart_rate m))
   then ["heart_rate_high"] else []) ++
  (if Qltb (respiratory_rate_high th) (inject_Z (m_respiratory_rate m))
   then ["respiratory_rate_high"] else []) ++
  (if Qltb (temperature_high th) (m_temperature m)
   then ["temperature_high"] else []).

(** The delta of a call that appended the alerts [als] only. *)
Definition alerts_only (als : list Alert) : Delta :=
  {| d_measurements := []; d_symptoms := []; d_alerts := als |}.

(** A short session on a new monitor, for the examples. *)
Definition sample_session : list Call :=
  [TakeMeasurement; LogSymptom "Toux" 8 "nuit"; TakeMeasurement;
   PredictDeterioration 6; DetectAnomalies; GenerateReport [] 24].

(** ** The regression library as a parameter *)

(** What [predict_deterioration] asks of the regression library:
    [LinearRegression().fit(X, y)], then [model.predict(future_X)]. *)
Record Estimator : Type := {
  fitted : Type;
  est_fit : list Z -> list Z -> Res fitted;
  est_predict : fitted -> list Z -> Res (list Q)
}.

(** The library in exact arithmetic. *)
Definition exact_least_squares : Estimator :=
  {| fitted := LinearRegression.t;
     est_fit := LinearRegression.fit;
     est_predict := LinearRegression.predict |}.

(** [predict_deterioration], whatever the library computes: the method above
    is this one with the library in exact arithmetic; the library that the
    program runs computes in binary64. *)
Definition predict_deterioration_with (lib : Estimator) (hours : Z) : M text :=
  st <- get ;;
  let window_size := window_size (prediction_settings (config st)) in
  if len (spo2 (data st)) <? window_size then ret insufficient_for_prediction
  else
    let spo2_data := slice_from (- window_size) (spo2 (data st)) in
    let X := arange 0 (len spo2_data) in
    let y := spo2_data in
    model <- lift (est_fit lib X y) ;;
    let future_X := arange (len spo2_data) (len spo2_data + hours) in
    predictions <- lift (est_predict lib model future_X) ;;
    let threshold := spo2_low (alert_thresholds (config st)) in
    if existsb (fun pred => Qltb pred threshold) predictions
    then ret (deterioration hours threshold)
    else ret no_deterioration.


(** The library, fitted on [(X, y)], answers [predictions] for [future_X]. *)
Definition answers (lib : Estimator) (X y future_X : list Z)
    (predictions : list Q) : Prop :=
  exists model, est_fit lib X y = Ok model /\
                est_predict lib model future_X = Ok predictions.

(** The value at [k] of the least-squares line of [(X, y)]. *)
Definition least_squares_value (X y : list Z) (k : Z) : Q :=
  LinearRegression.line
    (LinearRegression.solve (map inject_Z X) (map inject_Z y)) (inject_Z k).

(** Each prediction is within [tol] of the least-squares value at its index. *)
Definition within (tol : Q) (X y future_X : list Z) (predictions : list Q)
    : Prop :=
  Forall2 (fun k p => (Qabs (p - least_squares_value X y k) <= tol)%Q)
          future_X predictions.
(** * Properties *)

(** ** Running the monad *)

Lemma run_bind {A B} (c : M A) (k : A -> M B) w st a st' :
  c w st = (Ok a, st') -> bind c k w st = k a w st'.
Proof. intros H. unfold bind. now rewrite H. Qed.
Arguments run_bind {A B c} k {w st a st'} _.

Lemma run_bind_raise {A B} (c : M A) (k : A -> M B) w st e st' :
  c w st = (Raise e, st') -> bind c k w st = (Raise e, st').
Proof. intros H. unfold bind. now rewrite H. Qed.

Arguments run_bind_raise {A B c} k {w st e st'} _.

Lemma Qltb_lt (x y : Q) : Qltb x y = true <-> (x < y)%Q.
Proof. unfold Qltb, Qlt. apply Z.ltb_lt. Qed.

Lemma Qltb_ge (x y : Q) : Qltb x y = false <-> (y <= x)%Q.
Proof. unfold Qltb, Qle. apply Z.ltb_ge. Qed.

Lemma same_object_refl st : same_object st st.
Proof. repeat split. Qed.

Lemma same_object_trans st1 st2 st3 :
  same_object st1 st2 -> same_object st2 st3 -> same_object st1 st3.
Proof.
  unfold same_object.
  intros (a1 & a2 & a3 & a4 & a5 & a6 & a7) (b1 & b2 & b3 & b4 & b5 & b6 & b7).
  repeat split; congruence.
Qed.

Lemma same_object_tick st : same_object st (tick st).
Proof. repeat split. Qed.

Lemma same_object_stdout f st : same_object st (set_stdout f st).
Proof. repeat split. Qed.

Create HintDb monitor.
#[local] Hint Resolve same_object_refl same_object_tick same_object_stdout : monitor.

(** *** The dispatcher *)

(** The mail never raises and writes to the console only. *)
Lemma send_email_alert_run w message severity st :
  exists st', send_email_alert message severity w st = (Ok tt, st') /\
              same_object st st'.
Proof.
  unfold send_email_alert, try_except, bind, get, ret, now, smtp_session, print, modify.
  destruct ((sender_email (email_alerts (config st)) =? "")%string
            || match recipient_emails (email_alerts (config st)) with
               | [] => true | _ :: _ => false end); cbn.
  - eexists; split; [reflexivity | auto with monitor].
  - destruct (w_smtp w (S (epoch st))) as [e|]; cbn;
      (eexists; split; [reflexivity | repeat split]).
Qed.

Lemma appended_nil st st' : same_object st st' -> appended [] st st'.
Proof.
  unfold appended, same_object. intros (_ & _ & b3 & b4 & b5 & b6 & b7).
  rewrite b3, b4, b5, b6, b7, !app_nil_r. repeat split.
Qed.

Lemma appended_trans l1 l2 st st1 st2 :
  appended l1 st st1 -> appended l2 st1 st2 -> appended (l1 ++ l2) st st2.
Proof.
  unfold appended.
  intros (a1 & a2 & a3 & a4 & a5 & a6 & a7) (b1 & b2 & b3 & b4 & b5 & b6 & b7).
  rewrite b1, b2, a1, a2, !app_assoc. repeat split; congruence.
Qed.

Lemma appended_same_object l st st1 st2 :
  appended l st st1 -> same_object st1 st2 -> appended l st st2.
Proof.
  intros H1 H2. apply appended_nil in H2.
  rewrite <- (app_nil_r l). eapply appended_trans; eassumption.
Qed.

Lemma send_alert_run w alert_type message st :
  exists st', send_alert alert_type message w st = (Ok tt, st') /\
              appended [mk_alert (w_clock w (epoch st)) alert_type message] st st'.
Proof.
  unfold send_alert.
  set (a := mk_alert (w_clock w (epoch st)) alert_type message).
  set (st1 := set_stdout
                (fun out => out ++ [Fmt "🔴 ALERTE: {} - {}"
                                      [message; Tm (w_clock w (S (epoch st)))]])
                (tick (set_alerts (fun l => l ++ [a])
                  (set_db (fun d =>
                     {| t_measurements := t_measurements d;
                        t_symptoms := t_symptoms d;
                        t_alerts := t_alerts d ++ [a] |})
                     (tick st))))).
  assert (Hst1 : appended [a] st st1) by (repeat split).
  destruct (send_email_alert_run w message (classify alert_type) st1)
    as (st2 & Hmail & Hsame).
  destruct (enabled (email_alerts (config st))) eqn:Hen.
  - exists st2. split.
    + unfold save_alert, bind, now, modify, print, get. cbn.
      fold (mk_alert (w_clock w (epoch st)) alert_type message). fold a.
      rewrite Hen. exact Hmail.
    + eapply appended_same_object; eassumption.
  - exists st1. split.
    + unfold save_alert, bind, now, modify, print, get, ret. cbn.
      fold (mk_alert (w_clock w (epoch st)) alert_type message). fold a.
      now rewrite Hen.
    + assumption.
Qed.

(** One guarded [send_alert] of the threshold evaluator. *)
Lemma guarded_alert_run w (b : bool) alert_type message st :
  exists st' t,
    (if b then send_alert alert_type message else ret tt) w st = (Ok tt, st') /\
    appended (if b then [mk_alert t alert_type message] else []) st st'.
Proof.
  destruct b.
  - destruct (send_alert_run w alert_type message st) as (st' & H1 & H2).
    exists st', (w_clock w (epoch st)). auto.
  - exists st, 0. split; [reflexivity|]. apply appended_nil, same_object_refl.
Qed.

(** *** The threshold evaluator *)

Lemma check_measurement_alerts_run w m st :
  let th := alert_thresholds (config st) in
  exists st' t1 t2 t3 t4,
    check_measurement_alerts m w st = (Ok tt, st') /\
    appended
      ((if Qltb (inject_Z (m_spo2 m)) (spo2_low th)
        then [mk_alert t1 "spo2_low" (Fmt "SpO2 basse: {}%" [Int (m_spo2 m)])]
        else []) ++
       (if Qltb (heart_rate_high th) (inject_Z (m_heart_rate m))
        then [mk_alert t2 "heart_rate_high"
                (Fmt "Tachycardie: {} bpm" [Int (m_heart_rate m)])]
        else []) ++
       (if Qltb (respiratory_rate_high th) (inject_Z (m_respiratory_rate m))
        then [mk_alert t3 "respiratory_rate_high"
                (Fmt "Tachypnée: {} rpm" [Int (m_respiratory_rate m)])]
        else []) ++
       (if Qltb (temperature_high th) (m_temperature m)
        then [mk_alert t4 "temperature_high"
                (Fmt "Fièvre: {} °C" [Num (m_temperature m)])]
        else []))
      st st'.
Proof.
  intros th. unfold check_measurement_alerts.
  rewrite run_bind with (a := st) (st' := st) by reflexivity. fold th.
  destruct (guarded_alert_run w (Qltb (inject_Z (m_spo2 m)) (spo2_low th))
              "spo2_low" (Fmt "SpO2 basse: {}%" [Int (m_spo2 m)]) st)
    as (st1 & t1 & R1 & A1).
  destruct (guarded_alert_run w (Qltb (heart_rate_high th) (inject_Z (m_heart_rate m)))
              "heart_rate_high" (Fmt "Tachycardie: {} bpm" [Int (m_heart_rate m)]) st1)
    as (st2 & t2 & R2 & A2).
  destruct (guarded_alert_run w
              (Qltb (respiratory_rate_high th) (inject_Z (m_respiratory_rate m)))
              "respiratory_rate_high"
              (Fmt "Tachypnée: {} rpm" [Int (m_respiratory_rate m)]) st2)
    as (st3 & t3 & R3 & A3).
  destruct (guarded_alert_run w (Qltb (temperature_high th) (m_temperature m))
              "temperature_high" (Fmt "Fièvre: {} °C" [Num (m_temperature m)]) st3)
    as (st4 & t4 & R4 & A4).
  exists st4, t1, t2, t3, t4. split.
  - rewrite (run_bind _ R1), (run_bind _ R2), (run_bind _ R3).
    exact R4.
  - eapply appended_trans; [exact A1|].
    eapply appended_trans; [exact A2|].
    eapply appended_trans; [exact A3|exact A4].
Qed.

(** The conditions fired, in the order of the four tests. *)
Lemma fired_conditions_eq m w st :
  let th := alert_thresholds (config st) in
  fired_conditions m w st =
    (if Qltb (inject_Z (m_spo2 m)) (spo2_low th) then ["spo2_low"] else []) ++
    (if Qltb (heart_rate_high th) (inject_Z (m_heart_rate m))
     then ["heart_rate_high"] else []) ++
    (if Qltb (respiratory_rate_high th) (inject_Z (m_respiratory_rate m))
     then ["respiratory_rate_high"] else []) ++
    (if Qltb (temperature_high th) (m_temperature m)
     then ["temperature_high"] else []).
Proof.
  intros th.
  destruct (check_measurement_alerts_run w m st)
    as (st' & t1 & t2 & t3 & t4 & R & A).
  fold th in A. unfold fired_conditions, exec. rewrite R. cbn [snd].
  destruct A as (A & _). rewrite A, skipn_app, skipn_all, Nat.sub_diag.
  cbn [skipn app].
  destruct (Qltb (inject_Z (m_spo2 m)) (spo2_low th)),
    (Qltb (heart_rate_high th) (inject_Z (m_heart_rate m))),
    (Qltb (respiratory_rate_high th) (inject_Z (m_respiratory_rate m))),
    (Qltb (temperature_high th) (m_temperature m)); reflexivity.
Qed.

(** C1.  The threshold evaluator returns normally, appends to the alert list
    one Alert per fired condition, and fires a condition exactly when its
    rule matches: [spo2_low] iff spo2 is below its threshold,
    [heart_rate_high], [respiratory_rate_high] and [temperature_high] iff
    the reading is above theirs; the four rules are tested independently,
    nothing else fires and nothing fires twice.  The conditions fired depend
    on the measurement and the configuration only: another monitor with the
    same configuration, in another environment, fires the same ones. *)
Theorem threshold_evaluator_fires_matching_rules
    (w w' : World) (m : Measurement) (st st' : Monitor)
    (Hcfg : config st' = config st) :
  let th := alert_thresholds (config st) in
  let fired := fired_conditions m w st in
  result (check_measurement_alerts m) w st = Ok tt /\
  (exists new, alerts (exec (check_measurement_alerts m) w st) = alerts st ++ new /\
               map a_type new = fired) /\
  (In "spo2_low" fired <-> (inject_Z (m_spo2 m) < spo2_low th)%Q) /\
  (In "heart_rate_high" fired <->
     (heart_rate_high th < inject_Z (m_heart_rate m))%Q) /\
  (In "respiratory_rate_high" fired <->
     (respiratory_rate_high th < inject_Z (m_respiratory_rate m))%Q) /\
  (In "temperature_high" fired <-> (temperature_high th < m_temperature m)%Q) /\
  (forall c, In c fired ->
     In c ["spo2_low"; "heart_rate_high"; "respiratory_rate_high";
           "temperature_high"]) /\
  NoDup fired /\
  fired_conditions m w' st' = fired.
Proof.
  intros th fired.
  destruct (check_measurement_alerts_run w m st)
    as (st1 & t1 & t2 & t3 & t4 & R & A).
  split; [unfold result; now rewrite R|].
  split.
  { eexists. split.
    - unfold exec. rewrite R. cbn [snd]. apply A.
    - unfold fired. rewrite fired_conditions_eq. fold th.
      destruct (Qltb (inject_Z (m_spo2 m)) (spo2_low th)),
        (Qltb (heart_rate_high th) (inject_Z (m_heart_rate m))),
        (Qltb (respiratory_rate_high th) (inject_Z (m_respiratory_rate m))),
        (Qltb (temperature_high th) (m_temperature m)); reflexivity. }
  assert (Hst : fired_conditions m w' st' = fired).
  { unfold fired. rewrite !fired_conditions_eq, Hcfg. reflexivity. }
  assert (E := fired_conditions_eq m w st). cbv zeta in E. fold th fired in E.
  rewrite <- !Qltb_lt. clear R A Hcfg. clearbody fired th. subst fired.
  assert (Hin : forall (b : bool) (x c : string),
             In c (if b then [x] else []) <-> b = true /\ x = c).
  { intros [] x c; cbn; intuition discriminate. }
  repeat match goal with |- _ /\ _ => split end; try reflexivity; rewrite E.
  1-4: rewrite !in_app_iff, !Hin; intuition discriminate.
  - intros c. rewrite !in_app_iff, !Hin. cbn. intuition auto.
  - destruct (Qltb (inject_Z (m_spo2 m)) (spo2_low th)),
      (Qltb (heart_rate_high th) (inject_Z (m_heart_rate m))),
      (Qltb (respiratory_rate_high th) (inject_Z (m_respiratory_rate m))),
      (Qltb (temperature_high th) (m_temperature m)); cbn [app];
      repeat constructor; cbn; intuition discriminate.
Qed.

Lemma threshold_evaluator_fires_matching_rules_witness :
  fired_conditions alarming (script [] []) (new_monitor default_config) =
    ["spo2_low"; "heart_rate_high"; "respiratory_rate_high"; "temperature_high"]
  /\ fired_conditions alarming (script [97] [])
       (after_readings default_config [97; 96]) =
     fired_conditions alarming (script [] []) (new_monitor default_config).
Proof.
  split.
  - reflexivity.
  - apply (threshold_evaluator_fires_matching_rules
             (script [] []) (script [97] []) alarming
             (new_monitor default_config)
             (after_readings default_config [97; 96])).
    reflexivity.
Defined.

(** C7.  When the mail is switched on and configured and the SMTP session
    raises [e], [send_alert] still returns normally: the exception is caught
    inside [send_email_alert] and printed on the console; the Alert was
    appended to the table and to the list before the mail was attempted,
    and both hold exactly what they hold in any environment with the same
    clock, whether its mail goes out or not. *)
Theorem sink_failure_is_caught_and_logged
    (w : World) (alert_type : string) (message : text) (st : Monitor) (e : exn)
    (Hen : enabled (email_alerts (config st)) = true)
    (Hsender : sender_email (email_alerts (config st)) <> "")
    (Hrcpt : recipient_emails (email_alerts (config st)) <> [])
    (Hfail : w_smtp w (3 + epoch st)%nat = Some e) :
  let st' := exec (send_alert alert_type message) w st in
  result (send_alert alert_type message) w st = Ok tt /\
  appended [mk_alert (w_clock w (epoch st)) alert_type message] st st' /\
  stdout st' =
    stdout st ++
      [Fmt "🔴 ALERTE: {} - {}" [message; Tm (w_clock w (S (epoch st)))];
       Fmt "❌ Erreur lors de l'envoi de l'email: {}" [Lit (str_of_exn e)]] /\
  forall w', w_clock w' = w_clock w ->
    result (send_alert alert_type message) w' st = Ok tt /\
    alerts (exec (send_alert alert_type message) w' st) = alerts st' /\
    t_alerts (db (exec (send_alert alert_type message) w' st)) = t_alerts (db st').
Proof.
  intros st'.
  destruct (send_alert_run w alert_type message st) as (st1 & R & A).
  assert (Est : st' = st1) by (unfold st', exec; now rewrite R).
  repeat split; try (rewrite Est; apply A).
  - unfold result. now rewrite R.
  - unfold st', exec, send_alert, save_alert, bind, now, modify, print, get.
    cbn. rewrite Hen.
    unfold send_email_alert, try_except, bind, get, now, smtp_session, print,
      modify, ret. cbn.
    apply String.eqb_neq in Hsender. rewrite Hsender.
    destruct (recipient_emails (email_alerts (config st))) as [|r rs];
      [contradiction|]. cbn.
    change (S (S (S (epoch st)))) with (3 + epoch st)%nat. rewrite Hfail. cbn.
    now rewrite <- app_assoc.
  - destruct (send_alert_run w' alert_type message st) as (st2 & R' & A').
    unfold result. now rewrite R'.
  - destruct (send_alert_run w' alert_type message st) as (st2 & R' & A').
    unfold exec at 1. rewrite R', Est. cbn [snd].
    destruct A as (-> & _), A' as (-> & _). now rewrite H.
  - destruct (send_alert_run w' alert_type message st) as (st2 & R' & A').
    unfold exec at 1. rewrite R', Est. cbn [snd].
    destruct A as (_ & -> & _), A' as (_ & -> & _). now rewrite H.
Qed.

Lemma sink_failure_is_caught_and_logged_witness :
  let st := new_monitor (with_email mailing default_config) in
  let w := script [] [] in
  result (send_alert "spo2_low" (Lit "SpO2 basse")) w st = Ok tt /\
  alerts (exec (send_alert "spo2_low" (Lit "SpO2 basse")) w st) =
    [mk_alert 0 "spo2_low" (Lit "SpO2 basse")].
Proof.
  intros st w.
  assert (Hen : enabled (email_alerts (config st)) = true) by reflexivity.
  assert (Hsender : sender_email (email_alerts (config st)) <> "")
    by discriminate.
  assert (Hrcpt : recipient_emails (email_alerts (config st)) <> [])
    by discriminate.
  assert (Hfail : w_smtp w (3 + epoch st)%nat
                  = Some (SMTPException "Connection refused")) by reflexivity.
  destruct (sink_failure_is_caught_and_logged w "spo2_low" (Lit "SpO2 basse")
              st (SMTPException "Connection refused") Hen Hsender Hrcpt Hfail)
    as (Hres & Happ & _).
  split; [exact Hres | apply Happ].
Defined.

(** *** The exacerbation correlator *)

Lemma len_nonneg {A} (l : list A) : 0 <= len l.
Proof. unfold len. lia. Qed.

Lemma len_app {A} (l1 l2 : list A) : len (l1 ++ l2) = len l1 + len l2.
Proof. unfold len. rewrite length_app. lia. Qed.

Lemma nth_error_last {A} (l : list A) (d : A) :
  l <> [] -> nth_error l (List.length l - 1) = Some (last l d).
Proof.
  induction l as [|a [|b l'] IH]; intros Hne; [contradiction|reflexivity|].
  replace (List.length (a :: b :: l') - 1)%nat with (S (List.length (b :: l') - 1))
    by (cbn [List.length]; lia).
  cbn [nth_error]. rewrite IH by discriminate. reflexivity.
Qed.

(** [l[-1]] is the last element of a list that has one. *)
Lemma index_last {A} (l : list A) (d : A) :
  l <> [] -> index (-1) l = Some (last l d).
Proof.
  intros Hne. unfold index. cbn [Z.ltb Z.compare].
  assert (0 < len l) by (destruct l; [contradiction|unfold len; cbn; lia]).
  replace ((0 <=? len l + -1) && (len l + -1 <? len l)) with true
    by (symmetry; apply andb_true_iff; split; [apply Z.leb_le|apply Z.ltb_lt]; lia).
  replace (Z.to_nat (len l + -1)) with (List.length l - 1)%nat
    by (unfold len; lia).
  now apply nth_error_last.
Qed.

(** What [check_exacerbation] does: it never raises, and it answers [True],
    after one "exacerbation" Alert, exactly when there is a measurement, the
    lowered label is one of the three, the severity is at least 7 and the
    last spo2 is below the literal 92. *)
Lemma check_exacerbation_run w entry st :
  exists (b : bool) st',
    check_exacerbation entry w st = (Ok b, st') /\
    (b = true <->
       spo2 (data st) <> [] /\
       In (lower (s_symptom entry)) respiratory_symptoms /\
       7 <= s_severity entry /\
       last (spo2 (data st)) 0 < 92) /\
    appended (if b then [mk_alert (w_clock w (epoch st)) "exacerbation"
                           (Lit "Signes d'exacerbation possible")]
              else []) st st'.
Proof.
  unfold check_exacerbation.
  rewrite run_bind with (a := st) (st' := st) by reflexivity.
  destruct (spo2 (data st)) as [|x xs] eqn:Hspo2.
  - exists false, st. cbn. repeat split; try discriminate.
    + intros (Hne & _). now contradiction Hne.
    + now rewrite app_nil_r.
    + now rewrite app_nil_r.
  - assert (Hlen : (len (x :: xs) >? 0) = true)
      by (apply Z.gtb_lt; unfold len; cbn [List.length]; lia).
    rewrite Hlen, (index_last (x :: xs) 0) by discriminate.
    set (latest := last (x :: xs) 0).
    assert (Hin : str_in (lower (s_symptom entry)) respiratory_symptoms = true
                  <-> In (lower (s_symptom entry)) respiratory_symptoms).
    { unfold str_in. rewrite existsb_exists. split.
      - intros (y & Hy & Heq). apply String.eqb_eq in Heq. now subst.
      - intros Hy. eexists. split; [exact Hy|apply String.eqb_refl]. }
    destruct (str_in (lower (s_symptom entry)) respiratory_symptoms
              && (s_severity entry >=? 7) && (latest <? 92)) eqn:Hc.
    + destruct (send_alert_run w "exacerbation"
                  (Lit "Signes d'exacerbation possible") st) as (st' & R & A).
      exists true, st'. rewrite (run_bind _ R). split; [reflexivity|].
      split; [|exact A].
      apply andb_true_iff in Hc as (Hc & H3). apply andb_true_iff in Hc as (H1 & H2).
      split; [intros _|reflexivity].
      repeat split; [discriminate|now apply Hin| |now apply Z.ltb_lt].
      apply Z.geb_le in H2. lia.
    + exists false, st. split; [reflexivity|]. split.
      * split; [discriminate|]. intros (_ & H1 & H2 & H3).
        apply Hin in H1. rewrite H1 in Hc.
        replace (s_severity entry >=? 7) with true in Hc
          by (symmetry; apply Z.geb_le; lia).
        replace (latest <? 92) with true in Hc
          by (symmetry; now apply Z.ltb_lt).
        discriminate.
      * apply appended_nil, same_object_refl.
Qed.

(** C2, on the code.  Under a configuration whose spo2 threshold is 90, with
    a last spo2 of 91, the symptom "toux" at severity 8 makes
    [check_exacerbation] answer [True] and append an "exacerbation" Alert of
    severity "high", although 91 is not below the configured threshold: the
    test is made against the literal 92. *)
Theorem exacerbation_ignores_configured_threshold :
  let cfg := with_thresholds strict_thresholds default_config in
  let st := after_readings cfg [91] in
  let entry := {| s_timestamp := 0; s_symptom := "toux"; s_severity := 8;
                  s_notes := "" |} in
  spo2_low (alert_thresholds (config st)) = 90%Q /\
  index (-1) (spo2 (data st)) = Some 91 /\
  ~ (inject_Z 91 < spo2_low (alert_thresholds (config st)))%Q /\
  result (check_exacerbation entry) (script [] []) st = Ok true /\
  map (fun a => (a_type a, a_severity a))
      (alerts (exec (check_exacerbation entry) (script [] []) st)) =
    [("exacerbation", "high")].
Proof.
  cbv zeta. repeat split.
  intros H. apply Qltb_lt in H. discriminate H.
Qed.

(** *** The forecaster and the scorer write nothing *)

Lemma predict_deterioration_pure w hours st :
  exec (predict_deterioration hours) w st = st.
Proof.
  unfold exec, predict_deterioration, bind, get, lift, ret. cbn.
  destruct (len (spo2 (data st)) <? window_size (prediction_settings (config st)));
    [reflexivity|].
  destruct (LinearRegression.fit _ _); [|reflexivity].
  destruct (LinearRegression.predict _ _); [|reflexivity].
  destruct (existsb _ _); reflexivity.
Qed.

Lemma detect_anomalies_same_object w st :
  same_object st (exec detect_anomalies w st).
Proof.
  unfold exec, detect_anomalies, bind, get, lift, ret, isolation_forest. cbn.
  destruct (len (spo2 (data st)) <? 10); [apply same_object_refl|].
  destruct (np_array_T _ _ _); [|apply same_object_refl]. cbn.
  destruct (count_outliers _ >? 2); apply same_object_tick.
Qed.

Lemma classify_spec alert_type :
  classify alert_type = if (alert_type =? "exacerbation")%string
                        then "high" else "medium".
Proof. reflexivity. Qed.



(** *** The history in memory *)

Lemma simulate_measurement_run w st :
  let m := stamp (w_clock w (S (epoch st))) (w_sensor w (epoch st)) in
  exists st',
    simulate_measurement w st = (Ok m, st') /\
    data st' = append_measurement m (data st) /\
    t_measurements (db st') = t_measurements (db st) ++ [m] /\
    t_alerts (db st') = t_alerts (db st) /\
    config st' = config st /\ alerts st' = alerts st /\
    epoch st' = S (S (epoch st)).
Proof.
  intros m. eexists. split.
  - unfold simulate_measurement, bind, read_sensor_data, now, modify,
      save_measurement, ret. cbn. reflexivity.
  - repeat split.
Qed.

(** [n] measurements in a row: every channel gets its [n] readings at the
    end, in the order they were taken, and loses nothing. *)
Lemma measure_run w n : forall st,
  exists st',
    measure n w st = (Ok tt, st') /\
    data st' = fold_left (fun d m => append_measurement m d)
                         (readings_from w (epoch st) n) (data st) /\
    config st' = config st /\ alerts st' = alerts st /\
    epoch st' = (epoch st + 2 * n)%nat.
Proof.
  induction n as [|n IH]; intros st.
  - exists st. cbn. repeat split. lia.
  - destruct (simulate_measurement_run w st)
      as (st1 & R & Hd & _ & _ & Hc & Ha & He).
    destruct (IH st1) as (st2 & R2 & Hd2 & Hc2 & Ha2 & He2).
    exists st2. cbn [measure]. rewrite (run_bind _ R). split; [exact R2|].
    rewrite Hd2, Hc2, Ha2, He2, Hd, Hc, Ha, He. cbn [readings_from fold_left].
    repeat split. lia.
Qed.

Lemma fold_append_channels ms : forall d,
  let d' := fold_left (fun d m => append_measurement m d) ms d in
  timestamp d' = timestamp d ++ map m_time ms /\
  spo2 d' = spo2 d ++ map m_spo2 ms /\
  heart_rate d' = heart_rate d ++ map m_heart_rate ms /\
  respiratory_rate d' = respiratory_rate d ++ map m_respiratory_rate ms.
Proof.
  induction ms as [|m ms IH]; intros d; cbn [fold_left map].
  - now rewrite !app_nil_r.
  - destruct (IH (append_measurement m d)) as (H1 & H2 & H3 & H4).
    cbv zeta. rewrite H1, H2, H3, H4. cbn [append_measurement timestamp spo2
      heart_rate respiratory_rate]. now rewrite <- !app_assoc.
Qed.

Lemma length_readings_from w n : forall e,
  List.length (readings_from w e n) = n.
Proof. induction n as [|n IH]; intros e; cbn; [reflexivity|now rewrite IH]. Qed.

(** For [1 <= N <= len l], [l[-N:]] is the suffix of [l] of length [N]. *)
Lemma slice_from_suffix {A} (N : Z) (l : list A) :
  1 <= N <= len l ->
  slice_from (- N) l = last_n (Z.to_nat N) l /\
  l = firstn (List.length l - Z.to_nat N) l ++ slice_from (- N) l /\
  len (slice_from (- N) l) = N.
Proof.
  intros HN. unfold slice_from, last_n.
  replace (- N <? 0) with true by (symmetry; apply Z.ltb_lt; lia).
  replace (Z.to_nat (Z.max (len l + - N) 0)) with (List.length l - Z.to_nat N)%nat
    by (unfold len in *; lia).
  split; [reflexivity|]. split; [now rewrite firstn_skipn|].
  unfold len in *. rewrite length_skipn. lia.
Qed.



(** No capacity bounds the history: enough measurements outgrow any. *)
Lemma history_outgrows_any_capacity w st (capacity : Z) :
  exists n, capacity < len (spo2 (data (exec (measure n) w st))).
Proof.
  exists (Z.to_nat capacity + 1)%nat.
  destruct (measure_run w (Z.to_nat capacity + 1) st) as (st' & R & Hd & _).
  unfold exec. rewrite R. cbn [snd]. rewrite Hd.
  destruct (fold_append_channels
              (readings_from w (epoch st) (Z.to_nat capacity + 1)) (data st))
    as (_ & H & _).
  cbv zeta in H. rewrite H, len_app. unfold len at 2.
  rewrite length_map, length_readings_from.
  pose proof (len_nonneg (spo2 (data st))). lia.
Qed.


Lemma Sorted_snoc (l : list Z) (x : Z) :
  Sorted Z.le l -> (Sorted Z.le (l ++ [x]) <-> last l x <= x).
Proof.
  induction l as [|a [|b l'] IH]; intros Hs.
  - cbn. split; [lia|repeat constructor].
  - cbn. split.
    + intros H. inversion H as [|? ? _ Hr]. now inversion Hr.
    + intros H. repeat constructor. exact H.
  - inversion Hs as [|? ? Hs' Hr]. subst. inversion Hr as [|? ? Hab]. subst.
    specialize (IH Hs').
    change (last (a :: b :: l') x) with (last (b :: l') x).
    rewrite <- IH. cbn [app]. split.
    + intros H. now inversion H.
    + intros H. constructor; [exact H|now constructor].
Qed.

(** C8, amended.  [simulate_measurement] makes no check on the timestamp: it
    always returns the measurement, stamped with what the clock shows, and
    appends it at the end of every channel.  A history whose timestamps are
    sorted stays sorted exactly when the new timestamp is not earlier than
    the last one. *)
Theorem simulate_measurement_accepts_any_timestamp (w : World) (st : Monitor) :
  let m := stamp (w_clock w (S (epoch st))) (w_sensor w (epoch st)) in
  let st' := exec simulate_measurement w st in
  result simulate_measurement w st = Ok m /\
  timestamp (data st') = timestamp (data st) ++ [m_time m] /\
  spo2 (data st') = spo2 (data st) ++ [m_spo2 m] /\
  (Sorted Z.le (timestamp (data st)) ->
   (Sorted Z.le (timestamp (data st')) <->
    last (timestamp (data st)) (m_time m) <= m_time m)).
Proof.
  intros m st'.
  destruct (simulate_measurement_run w st) as (st1 & R & Hd & _).
  assert (Est : st' = st1) by (unfold st', exec; now rewrite R).
  fold m in R, Hd. rewrite Est, Hd.
  split; [unfold result; now rewrite R|].
  split; [reflexivity|]. split; [reflexivity|].
  intros Hs. cbn [append_measurement timestamp]. now apply Sorted_snoc.
Qed.

Lemma simulate_measurement_accepts_any_timestamp_witness :
  let st := after_readings default_config [97] in
  let st' := exec simulate_measurement (script [97; 95] []) st in
  timestamp (data st') = [1; 3] /\ Sorted Z.le (timestamp (data st')).
Proof.
  intros st st'.
  destruct (simulate_measurement_accepts_any_timestamp (script [97; 95] []) st)
    as (_ & Ht & _ & Hs).
  split; [exact Ht|]. apply Hs.
  - repeat constructor.
  - vm_compute. discriminate.
Defined.

(** C8, as stated, fails: when the clock shows 97 after having shown 99, the
    second measurement is returned like any other and the timestamps in
    memory are 99 then 97. *)
Lemma timestamp_regression_is_accepted :
  let w := backwards (script [97; 95] []) in
  let st := exec simulate_measurement w (new_monitor default_config) in
  timestamp (data st) = [99] /\
  result simulate_measurement w st = Ok (stamp 97 (reading_of 95)) /\
  timestamp (data (exec simulate_measurement w st)) = [99; 97] /\
  ~ Sorted Z.le (timestamp (data (exec simulate_measurement w st))).
Proof.
  cbv zeta. repeat split.
  intros H. vm_compute in H. inversion H as [|? ? _ Hr]. inversion Hr as [|? ? Hle].
  now apply Hle.
Qed.

(** *** Too short a history *)

Lemma predict_deterioration_short w hours st :
  len (spo2 (data st)) < window_size (prediction_settings (config st)) ->
  predict_deterioration hours w st = (Ok insufficient_for_prediction, st).
Proof.
  intros H. unfold predict_deterioration.
  rewrite run_bind with (a := st) (st' := st) by reflexivity.
  apply Z.ltb_lt in H. now rewrite H.
Qed.

Lemma detect_anomalies_short w st :
  len (spo2 (data st)) < 10 ->
  detect_anomalies w st = (Ok insufficient_for_anomalies, st).
Proof.
  intros H. unfold detect_anomalies.
  rewrite run_bind with (a := st) (st' := st) by reflexivity.
  apply Z.ltb_lt in H. now rewrite H.
Qed.

(** C9.  With fewer spo2 samples than [window_size] the forecaster, and with
    fewer than 10 the scorer, returns its "insufficient data" text as an
    ordinary value, whatever the history holds; it raises nothing and
    leaves the monitor as it was. *)
Theorem short_history_gives_insufficient_data
    (w : World) (hours : Z) (st : Monitor) :
  (len (spo2 (data st)) < window_size (prediction_settings (config st)) ->
   predict_deterioration hours w st = (Ok insufficient_for_prediction, st)) /\
  (len (spo2 (data st)) < 10 ->
   detect_anomalies w st = (Ok insufficient_for_anomalies, st)).
Proof.
  split; intros H.
  - now apply predict_deterioration_short.
  - now apply detect_anomalies_short.
Qed.

Lemma short_history_gives_insufficient_data_witness :
  let st := after_readings default_config [97; 90; 85] in
  predict_deterioration 6 (script [] []) st = (Ok insufficient_for_prediction, st) /\
  detect_anomalies (script [] []) st = (Ok insufficient_for_anomalies, st).
Proof.
  intros st.
  destruct (short_history_gives_insufficient_data (script [] []) 6 st) as (H1 & H2).
  split; [apply H1|apply H2]; vm_compute; reflexivity.
Defined.

(** *** The anomaly scorer *)

Lemma slice_from_last_10 {A} (l : list A) : slice_from (-10) l = last_n 10 l.
Proof.
  unfold slice_from, last_n. cbn [Z.ltb Z.compare]. f_equal.
  unfold len. lia.
Qed.

Lemma length_last_n {A} (n : nat) (l : list A) :
  (n <= List.length l)%nat -> List.length (last_n n l) = n.
Proof. intros H. unfold last_n. rewrite length_skipn. lia. Qed.


(** With ten samples in each channel the scorer asks the forest, at
    contamination 1/10, for the labels of the last ten rows and turns their
    count of [-1] into its text. *)
Lemma detect_anomalies_run w st :
  10 <= len (spo2 (data st)) ->
  10 <= len (heart_rate (data st)) ->
  10 <= len (respiratory_rate (data st)) ->
  let X := combine (combine (last_n 10 (spo2 (data st)))
                            (last_n 10 (heart_rate (data st))))
                   (last_n 10 (respiratory_rate (data st))) in
  let c := count_outliers (w_isolation_forest w (epoch st) (1 # 10) X) in
  detect_anomalies w st =
    (Ok (if c >? 2 then anomalies_detected c else no_anomaly), tick st).
Proof.
  intros H1 H2 H3 X c. unfold detect_anomalies.
  rewrite run_bind with (a := st) (st' := st) by reflexivity.
  replace (len (spo2 (data st)) <? 10) with false
    by (symmetry; apply Z.ltb_ge; lia).
  rewrite !slice_from_last_10. unfold np_array_T.
  unfold len in H1, H2, H3. rewrite !length_last_n by lia. cbn [Nat.eqb andb].
  unfold bind, lift, isolation_forest. fold X. fold c.
  destruct (c >? 2); reflexivity.
Qed.



(** C10.  The scorer never reads the configuration: whatever [window_size]
    is set to, it gives the same result.  With ten samples or more in each
    channel its result is a function of the ten most recent samples of the
    three channels (and of what the forest answers for them): two monitors
    that agree on those agree on the result.  The forecaster does read
    [window_size]: on five readings it forecasts with a window of 5 and has
    too few data with a window of 10. *)
Theorem anomaly_scorer_window_is_ten
    (w : World) (st st2 : Monitor) (n : Z)
    (Hspo2 : 10 <= len (spo2 (data st)))
    (Hhr : 10 <= len (heart_rate (data st)))
    (Hrr : 10 <= len (respiratory_rate (data st))) :
  result detect_anomalies w (set_config (with_window_size n (config st)) st)
    = result detect_anomalies w st /\
  (let X := combine (combine (last_n 10 (spo2 (data st)))
                             (last_n 10 (heart_rate (data st))))
                    (last_n 10 (respiratory_rate (data st))) in
   let c := count_outliers (w_isolation_forest w (epoch st) (1 # 10) X) in
   List.length X = 10%nat /\
   result detect_anomalies w st
     = Ok (if c >? 2 then anomalies_detected c else no_anomaly)) /\
  (10 <= len (spo2 (data st2)) ->
   10 <= len (heart_rate (data st2)) ->
   10 <= len (respiratory_rate (data st2)) ->
   epoch st2 = epoch st ->
   last_n 10 (spo2 (data st2)) = last_n 10 (spo2 (data st)) ->
   last_n 10 (heart_rate (data st2)) = last_n 10 (heart_rate (data st)) ->
   last_n 10 (respiratory_rate (data st2)) = last_n 10 (respiratory_rate (data st)) ->
   result detect_anomalies w st2 = result detect_anomalies w st) /\
  (let five := after_readings (with_window_size 5 default_config)
                 [98; 96; 94; 92; 90] in
   result (predict_deterioration 3) w five = Ok (deterioration 3 92) /\
   result (predict_deterioration 3) w
          (set_config (with_window_size 10 (config five)) five)
     = Ok insufficient_for_prediction).
Proof.
  assert (R := detect_anomalies_run w st Hspo2 Hhr Hrr). cbv zeta in R.
  split; [|split; [|split]].
  - assert (R' := detect_anomalies_run w
                    (set_config (with_window_size n (config st)) st)
                    Hspo2 Hhr Hrr).
    cbv zeta in R'. unfold result. rewrite R, R'. reflexivity.
  - cbv zeta. split.
    + unfold len in *. rewrite !length_combine, !length_last_n by lia.
      reflexivity.
    + unfold result. now rewrite R.
  - intros H1 H2 H3 He E1 E2 E3.
    assert (R2 := detect_anomalies_run w st2 H1 H2 H3). cbv zeta in R2.
    unfold result. rewrite R, R2, He, E1, E2, E3. reflexivity.
  - cbv zeta. split; vm_compute; reflexivity.
Qed.

Lemma anomaly_scorer_window_is_ten_witness :
  let st := after_readings default_config
              [98; 97; 96; 95; 94; 93; 92; 91; 90; 89] in
  let trees := script [] [1; -1; 1; 1; -1; 1; 1; 1; -1; 1] in
  result detect_anomalies trees (set_config (with_window_size 3 (config st)) st)
    = result detect_anomalies trees st.
Proof.
  intros st trees.
  assert (H10 : 10 <= 10) by lia.
  exact (proj1 (anomaly_scorer_window_is_ten trees st st 3 H10 H10 H10)).
Defined.

(** *** Least squares *)

Section LeastSquares.

Local Open Scope Q_scope.

Lemma Qsum_cons (x : Q) (l : list Q) : Qsum (x :: l) = x + Qsum l.
Proof. reflexivity. Qed.

Lemma Qsum_nonneg {A} (f : A -> Q) (l : list A) :
  (forall p, 0 <= f p) -> 0 <= Qsum (map f l).
Proof.
  intros Hf. induction l as [|p l IH]; cbn [map]; [apply Qle_refl|].
  rewrite Qsum_cons. specialize (Hf p). lra.
Qed.

(** A sum of squares that vanishes has vanishing terms, and so has every
    sum of products with these terms. *)
Lemma Qsum_squares_zero {A} (f g : A -> Q) (l : list A) :
  Qsum (map (fun p => f p * f p) l) == 0 ->
  Qsum (map (fun p => f p * g p) l) == 0.
Proof.
  induction l as [|p l IH]; cbn [map]; [reflexivity|].
  rewrite !Qsum_cons. intros H.
  assert (H0 : 0 <= Qsum (map (fun p => f p * f p) l))
    by (apply Qsum_nonneg; intros q; nra).
  assert (Hp : f p * f p == 0) by nra.
  assert (Hl : Qsum (map (fun p => f p * f p) l) == 0) by nra.
  rewrite (IH Hl).
  assert (Hfp : f p == 0).
  { destruct (Qeq_dec (f p) 0) as [E|E]; [exact E|]. exfalso. nra. }
  rewrite Hfp. ring.
Qed.

Variables (mx my : Q).

Abbreviation N pts := (inject_Z (len pts)).
Abbreviation Sx pts := (Qsum (map (fun p : Q * Q => fst p - mx) pts)).
Abbreviation Sy pts := (Qsum (map (fun p : Q * Q => snd p - my) pts)).
Abbreviation Sxx pts :=
  (Qsum (map (fun p : Q * Q => (fst p - mx) * (fst p - mx)) pts)).
Abbreviation Sxy pts :=
  (Qsum (map (fun p : Q * Q => (fst p - mx) * (snd p - my)) pts)).
Abbreviation Syy pts :=
  (Qsum (map (fun p : Q * Q => (snd p - my) * (snd p - my)) pts)).
Abbreviation SSE a b pts :=
  (Qsum (map (fun p : Q * Q =>
                (snd p - (a * fst p + b)) * (snd p - (a * fst p + b))) pts)).

Lemma N_cons (p : Q * Q) (pts : list (Q * Q)) : N (p :: pts) == 1 + N pts.
Proof.
  unfold len. cbn [List.length]. rewrite Nat2Z.inj_succ, <- Z.add_1_l.
  now rewrite inject_Z_plus.
Qed.

(** The residuals around any centre [(mx, my)]. *)
Lemma sse_centred (a b : Q) (pts : list (Q * Q)) :
  let c := my - a * mx - b in
  SSE a b pts ==
    Syy pts - 2 * a * Sxy pts + a * a * Sxx pts
    + 2 * c * (Sy pts - a * Sx pts) + N pts * (c * c).
Proof.
  intros c. induction pts as [|p pts IH].
  - cbn. ring.
  - rewrite N_cons. cbn [map].
    rewrite !Qsum_cons, IH. unfold c. ring.
Qed.

Lemma centred_sums (pts : list (Q * Q)) :
  Sx pts == Qsum (map fst pts) - N pts * mx /\
  Sy pts == Qsum (map snd pts) - N pts * my.
Proof.
  induction pts as [|p pts (IHx & IHy)].
  - cbn. split; ring.
  - rewrite N_cons. cbn [map]. rewrite !Qsum_cons, IHx, IHy.
    split; ring.
Qed.

End LeastSquares.

Lemma Qsquare_nonneg (x : Q) : (0 <= x * x)%Q.
Proof. nra. Qed.

Lemma map_fst_combine_eq {A B} (xs : list A) : forall (ys : list B),
  List.length xs = List.length ys ->
  map fst (combine xs ys) = xs /\ map snd (combine xs ys) = ys.
Proof.
  induction xs as [|x xs IH]; intros [|y ys] H; try discriminate; cbn.
  - now split.
  - injection H as H. destruct (IH ys H) as (-> & ->). now split.
Qed.

(** The line fitted by [LinearRegression] is an ordinary least-squares line:
    no line has a smaller sum of squared residuals on the fitted points. *)
Lemma LinearRegression_solve_minimal (xs ys : list Q) :
  List.length xs = List.length ys -> xs <> [] ->
  let m := LinearRegression.solve xs ys in
  forall a b : Q,
    (sse (LinearRegression.coef_ m) (LinearRegression.intercept_ m) xs ys
     <= sse a b xs ys)%Q.
Proof.
  intros Hlen Hne m a b.
  destruct (map_fst_combine_eq xs ys Hlen) as (Hx & Hy).
  set (mx := Qmean xs). set (my := Qmean ys).
  set (pts := combine xs ys) in *.
  set (n := inject_Z (len pts)).
  assert (Hn : (0 < n)%Q).
  { unfold n, len, pts. rewrite length_combine, <- Hlen, Nat.min_id.
    change 0%Q with (inject_Z 0). rewrite <- Zlt_Qlt.
    destruct xs; [contradiction|cbn; lia]. }
  assert (Hlx : inject_Z (len xs) = n).
  { unfold n, len, pts. now rewrite length_combine, <- Hlen, Nat.min_id. }
  assert (Hly : inject_Z (len ys) = n).
  { unfold n, len, pts. now rewrite length_combine, Hlen, Nat.min_id. }
  destruct (centred_sums mx my pts) as (Hsx & Hsy).
  rewrite Hx in Hsx. rewrite Hy in Hsy. fold n in Hsx, Hsy.
  assert (Hsx0 : (Qsum (map (fun p => fst p - mx) pts) == 0)%Q).
  { rewrite Hsx. unfold mx, Qmean. rewrite Hlx. field. lra. }
  assert (Hsy0 : (Qsum (map (fun p => snd p - my) pts) == 0)%Q).
  { rewrite Hsy. unfold my, Qmean. rewrite Hly. field. lra. }
  set (Sxx := Qsum (map (fun p => (fst p - mx) * (fst p - mx))%Q pts)).
  set (Sxy := Qsum (map (fun p => (fst p - mx) * (snd p - my))%Q pts)).
  set (Syy := Qsum (map (fun p => (snd p - my) * (snd p - my))%Q pts)).
  assert (Esxx : LinearRegression.sxx xs = Sxx).
  { unfold LinearRegression.sxx. fold mx. unfold Sxx.
    rewrite <- Hx at 1. now rewrite map_map. }
  assert (Esxy : LinearRegression.sxy xs ys = Sxy) by reflexivity.
  assert (Hpos : (0 <= Sxx)%Q)
    by (apply Qsum_nonneg; intros p; apply Qsquare_nonneg).
  set (a' := LinearRegression.coef_ m). set (b' := LinearRegression.intercept_ m).
  assert (Ea : (a' == Sxy / Sxx)%Q)
    by (unfold a', m; cbn; now rewrite Esxx, Esxy).
  assert (Eb : (b' == my - a' * mx)%Q) by (unfold b', a', m; cbn; reflexivity).
  assert (E1 := sse_centred mx my a' b' pts).
  assert (E2 := sse_centred mx my a b pts).
  cbv zeta in E1, E2. fold n Sxx Sxy Syy in E1, E2.
  unfold sse. fold pts. rewrite E1, E2, Hsx0, Hsy0.
  set (c := (my - a * mx - b)%Q).
  assert (Ec : (my - a' * mx - b' == 0)%Q) by (rewrite Eb; ring).
  rewrite Ec.
  assert (Hnc : (0 <= n * (c * c))%Q)
    by (apply Qmult_le_0_compat; [lra|apply Qsquare_nonneg]).
  assert (Hsq : (0 <= Sxx * ((a - a') * (a - a')))%Q)
    by (apply Qmult_le_0_compat; [exact Hpos|apply Qsquare_nonneg]).
  assert (Hdeg : (Sxx == 0 -> Sxy == 0)%Q)
    by (apply (Qsum_squares_zero (fun p => fst p - mx) (fun p => snd p - my))%Q).
  fold Sxx Sxy Syy n.
  clearbody Sxx Sxy Syy n c a' b'. clear - Hnc Hsq Hdeg Ea.
  destruct (Qeq_dec Sxx 0) as [Hz|Hnz].
  - assert (Hxy : (Sxy == 0)%Q) by auto.
    assert (T1 : (a' * Sxy == 0)%Q) by (rewrite Hxy; ring).
    assert (T2 : (a' * a' * Sxx == 0)%Q) by (rewrite Hz; ring).
    assert (T3 : (a * Sxy == 0)%Q) by (rewrite Hxy; ring).
    assert (T4 : (a * a * Sxx == 0)%Q) by (rewrite Hz; ring).
    lra.
  - assert (Hxy : (Sxy == a' * Sxx)%Q) by (rewrite Ea; field; exact Hnz).
    assert (T1 : (a' * Sxy == a' * a' * Sxx)%Q) by (rewrite Hxy; ring).
    assert (T3 : (a * Sxy == a * a' * Sxx)%Q) by (rewrite Hxy; ring).
    lra.
Qed.

(** *** The trend forecaster *)


Lemma length_arange (a b : Z) : List.length (arange a b) = Z.to_nat (b - a).
Proof. unfold arange. now rewrite length_map, length_seq. Qed.

Lemma In_arange (a b k : Z) : In k (arange a b) <-> a <= k < b.
Proof.
  unfold arange. rewrite in_map_iff. split.
  - intros (i & <- & Hi). apply in_seq in Hi. lia.
  - intros H. exists (Z.to_nat (k - a)). rewrite in_seq. lia.
Qed.

Lemma existsb_map {A B} (f : B -> bool) (g : A -> B) (l : list A) :
  existsb f (map g l) = existsb (fun x => f (g x)) l.
Proof. induction l as [|x l IH]; cbn; [reflexivity|now rewrite IH]. Qed.

(** With a window of at least one sample, a history that fills it and a
    horizon of at least one hour, the forecaster fits the last [window_size]
    samples against [0 .. window_size - 1] and tests the fitted line at
    [window_size .. window_size + hours - 1]. *)
Lemma predict_deterioration_run w hours st :
  let ws := window_size (prediction_settings (config st)) in
  let threshold := spo2_low (alert_thresholds (config st)) in
  let y := slice_from (- ws) (spo2 (data st)) in
  let model := LinearRegression.solve (map inject_Z (arange 0 ws)) (map inject_Z y) in
  1 <= ws -> ws <= len (spo2 (data st)) -> 1 <= hours ->
  predict_deterioration hours w st =
    (Ok (if existsb (fun k => Qltb (LinearRegression.line model (inject_Z k)) threshold)
                    (arange ws (ws + hours))
         then deterioration hours threshold else no_deterioration), st).
Proof.
  intros ws threshold y model Hws Hlen Hh. unfold predict_deterioration.
  rewrite run_bind with (a := st) (st' := st) by reflexivity.
  fold ws threshold.
  replace (len (spo2 (data st)) <? ws) with false
    by (symmetry; apply Z.ltb_ge; lia).
  fold y.
  assert (Hy : len y = ws) by (apply slice_from_suffix; lia).
  rewrite Hy.
  assert (Hfit : LinearRegression.fit (arange 0 ws) y = Ok model).
  { unfold model, LinearRegression.fit.
    destruct (arange 0 ws) as [|x0 X] eqn:E; [|reflexivity].
    apply (f_equal (@List.length Z)) in E. rewrite length_arange in E.
    cbn in E. lia. }
  assert (Hpred : LinearRegression.predict model (arange ws (ws + hours))
                  = Ok (map (fun x => LinearRegression.line model (inject_Z x))
                            (arange ws (ws + hours)))).
  { unfold LinearRegression.predict.
    destruct (arange ws (ws + hours)) as [|x0 X] eqn:E; [|reflexivity].
    apply (f_equal (@List.length Z)) in E. rewrite length_arange in E.
    cbn in E. lia. }
  unfold bind, lift. rewrite Hfit, Hpred, existsb_map.
  destruct (existsb _ _); reflexivity.
Qed.


(** The forecaster with any library: it fits the last [window_size] samples
    against [0 .. window_size - 1], asks for the values at
    [window_size .. window_size + hours - 1] and tests what it is answered. *)
Lemma predict_deterioration_with_run lib w hours st predictions :
  let ws := window_size (prediction_settings (config st)) in
  let threshold := spo2_low (alert_thresholds (config st)) in
  let y := slice_from (- ws) (spo2 (data st)) in
  1 <= ws -> ws <= len (spo2 (data st)) ->
  answers lib (arange 0 ws) y (arange ws (ws + hours)) predictions ->
  predict_deterioration_with lib hours w st =
    (Ok (if existsb (fun pred => Qltb pred threshold) predictions
         then deterioration hours threshold else no_deterioration), st).
Proof.
  intros ws threshold y Hws Hlen (model & Hfit & Hpred).
  unfold predict_deterioration_with.
  rewrite run_bind with (a := st) (st' := st) by reflexivity.
  fold ws threshold.
  replace (len (spo2 (data st)) <? ws) with false
    by (symmetry; apply Z.ltb_ge; lia).
  fold y.
  assert (Hy : len y = ws) by (apply slice_from_suffix; lia).
  rewrite Hy. unfold bind, lift. rewrite Hfit, Hpred.
  destruct (existsb _ _); reflexivity.
Qed.

(** The method of the source is the forecaster with the exact library. *)
Lemma predict_deterioration_exact hours :
  predict_deterioration hours = predict_deterioration_with exact_least_squares hours.
Proof. reflexivity. Qed.



Lemma within_upper tol X y k p v :
  (Qabs (p - least_squares_value X y k) <= tol)%Q ->
  (least_squares_value X y k == v)%Q ->
  (v - tol <= p /\ p <= v + tol)%Q.
Proof.
  intros H E. apply Qabs_Qle_condition in H. rewrite E in H. split; lra.
Qed.




(** The horizon is the argument [hours]: the [forecast_hours] of the
    configuration is read nowhere. *)
Lemma predict_deterioration_ignores_forecast_hours w hours n st :
  result (predict_deterioration hours) w
         (set_config (with_forecast_hours n (config st)) st)
  = result (predict_deterioration hours) w st.
Proof.
  unfold result, predict_deterioration, bind, get, lift, ret. cbn.
  destruct (len (spo2 (data st)) <? window_size (prediction_settings (config st)));
    [reflexivity|].
  destruct (LinearRegression.fit _ _); [|reflexivity].
  destruct (LinearRegression.predict _ _); [|reflexivity].
  destruct (existsb _ _); reflexivity.
Qed.

(** Outside the hypotheses of C3 the library calls raise: a horizon of 0
    hours asks for the prediction of an empty array. *)
Lemma predict_deterioration_zero_hours :
  result (predict_deterioration 0) (script [] [])
         (after_readings (with_window_size 5 default_config) [98; 96; 94; 92; 90])
  = Raise LinearRegression.no_sample.
Proof. vm_compute. reflexivity. Qed.

(** * Further properties *)

(** ** What the methods append *)

Lemma channels_grow_refl d : channels_grow [] d d.
Proof. unfold channels_grow. cbn [map]. rewrite !app_nil_r. repeat split. Qed.

Lemma channels_grow_trans ms1 ms2 d d1 d2 :
  channels_grow ms1 d d1 -> channels_grow ms2 d1 d2 ->
  channels_grow (ms1 ++ ms2) d d2.
Proof.
  unfold channels_grow.
  intros (a1 & a2 & a3 & a4 & a5 & a6 & a7 & a8)
         (b1 & b2 & b3 & b4 & b5 & b6 & b7 & b8).
  rewrite b1, b2, b3, b4, b5, b6, b7, b8, a1, a2, a3, a4, a5, a6, a7, a8.
  rewrite !map_app, !app_assoc. repeat split.
Qed.

Lemma channels_grow_append m d : channels_grow [m] d (append_measurement m d).
Proof. repeat split. Qed.

Lemma grows_refl st : grows no_delta st st.
Proof.
  unfold grows. cbn [no_delta d_measurements d_symptoms d_alerts map].
  rewrite !app_nil_r. repeat split; apply channels_grow_refl.
Qed.

Lemma grows_trans d1 d2 st st1 st2 :
  grows d1 st st1 -> grows d2 st1 st2 -> grows (delta_app d1 d2) st st2.
Proof.
  unfold grows.
  intros (a1 & a2 & a3 & a4 & a5 & a6 & a7 & a8 & a9 & a10)
         (b1 & b2 & b3 & b4 & b5 & b6 & b7 & b8 & b9 & b10).
  cbn [delta_app d_measurements d_symptoms d_alerts].
  rewrite b1, b2, b3, b5, b6, b7, b8, b9, b10, a1, a2, a3, a5, a6, a7, a8, a9, a10.
  rewrite !map_app, !app_assoc.
  repeat match goal with |- _ /\ _ => split end; try reflexivity.
  eapply channels_grow_trans; eassumption.
Qed.

Arguments grows_trans {d1 d2 st st1 st2} _ _.

Lemma grows_same_object d st st1 st2 :
  grows d st st1 -> same_object st1 st2 -> grows d st st2.
Proof.
  unfold grows, same_object.
  intros H (b1 & b2 & b3 & b4 & b5 & b6 & b7).
  rewrite b1, b2, b3, b4, b5, b6, b7. exact H.
Qed.

Lemma same_object_grows st st' : same_object st st' -> grows no_delta st st'.
Proof. intros H. eapply grows_same_object; [apply grows_refl|exact H]. Qed.

Lemma grows_alerts_only_nil st st' :
  same_object st st' -> grows (alerts_only []) st st'.
Proof. apply same_object_grows. Qed.

Lemma send_alert_grows w alert_type message st :
  exists st',
    send_alert alert_type message w st = (Ok tt, st') /\
    grows (alerts_only [mk_alert (w_clock w (epoch st)) alert_type message]) st st'.
Proof.
  unfold send_alert.
  set (a := mk_alert (w_clock w (epoch st)) alert_type message).
  set (st1 := set_stdout
                (fun out => out ++ [Fmt "🔴 ALERTE: {} - {}"
                                      [message; Tm (w_clock w (S (epoch st)))]])
                (tick (set_alerts (fun l => l ++ [a])
                  (set_db (fun d =>
                     {| t_measurements := t_measurements d;
                        t_symptoms := t_symptoms d;
                        t_alerts := t_alerts d ++ [a] |})
                     (tick st))))).
  assert (Hst1 : grows (alerts_only [a]) st st1).
  { unfold grows, channels_grow. cbn. rewrite !app_nil_r. repeat split. }
  destruct (send_email_alert_run w message (classify alert_type) st1)
    as (st2 & Hmail & Hsame).
  destruct (enabled (email_alerts (config st))) eqn:Hen.
  - exists st2. split.
    + unfold save_alert, bind, now, modify, print, get. cbn.
      fold (mk_alert (w_clock w (epoch st)) alert_type message). fold a.
      rewrite Hen. exact Hmail.
    + eapply grows_same_object; eassumption.
  - exists st1. split.
    + unfold save_alert, bind, now, modify, print, get, ret. cbn.
      fold (mk_alert (w_clock w (epoch st)) alert_type message). fold a.
      now rewrite Hen.
    + assumption.
Qed.

Lemma guarded_alert_grows w (b : bool) alert_type message st :
  exists st' t,
    (if b then send_alert alert_type message else ret tt) w st = (Ok tt, st') /\
    grows (alerts_only (if b then [mk_alert t alert_type message] else [])) st st'.
Proof.
  destruct b.
  - destruct (send_alert_grows w alert_type message st) as (st' & H1 & H2).
    exists st', (w_clock w (epoch st)). auto.
  - exists st, 0. split; [reflexivity|apply grows_refl].
Qed.

Lemma well_formed_mk_alert t alert_type message :
  In alert_type sent_types -> well_formed_alert (mk_alert t alert_type message).
Proof. intros H. split; [exact H|reflexivity]. Qed.

(** The threshold evaluator appends to the list and to the table the alerts
    of the conditions of the reading, in the order of the tests, and
    nothing else. *)
Lemma check_measurement_alerts_grows w m st :
  exists st' als,
    check_measurement_alerts m w st = (Ok tt, st') /\
    grows (alerts_only als) st st' /\
    map a_type als = conditions_of (alert_thresholds (config st)) m /\
    Forall well_formed_alert als.
Proof.
  set (th := alert_thresholds (config st)).
  unfold check_measurement_alerts.
  rewrite run_bind with (a := st) (st' := st) by reflexivity. fold th.
  destruct (guarded_alert_grows w (Qltb (inject_Z (m_spo2 m)) (spo2_low th))
              "spo2_low" (Fmt "SpO2 basse: {}%" [Int (m_spo2 m)]) st)
    as (st1 & t1 & R1 & A1).
  destruct (guarded_alert_grows w (Qltb (heart_rate_high th) (inject_Z (m_heart_rate m)))
              "heart_rate_high" (Fmt "Tachycardie: {} bpm" [Int (m_heart_rate m)]) st1)
    as (st2 & t2 & R2 & A2).
  destruct (guarded_alert_grows w
              (Qltb (respiratory_rate_high th) (inject_Z (m_respiratory_rate m)))
              "respiratory_rate_high"
              (Fmt "Tachypnée: {} rpm" [Int (m_respiratory_rate m)]) st2)
    as (st3 & t3 & R3 & A3).
  destruct (guarded_alert_grows w (Qltb (temperature_high th) (m_temperature m))
              "temperature_high" (Fmt "Fièvre: {} °C" [Num (m_temperature m)]) st3)
    as (st4 & t4 & R4 & A4).
  exists st4.
  exists ((if Qltb (inject_Z (m_spo2 m)) (spo2_low th)
           then [mk_alert t1 "spo2_low" (Fmt "SpO2 basse: {}%" [Int (m_spo2 m)])]
           else []) ++
          (if Qltb (heart_rate_high th) (inject_Z (m_heart_rate m))
           then [mk_alert t2 "heart_rate_high"
                   (Fmt "Tachycardie: {} bpm" [Int (m_heart_rate m)])]
           else []) ++
          (if Qltb (respiratory_rate_high th) (inject_Z (m_respiratory_rate m))
           then [mk_alert t3 "respiratory_rate_high"
                   (Fmt "Tachypnée: {} rpm" [Int (m_respiratory_rate m)])]
           else []) ++
          (if Qltb (temperature_high th) (m_temperature m)
           then [mk_alert t4 "temperature_high"
                   (Fmt "Fièvre: {} °C" [Num (m_temperature m)])]
           else [])).
  split; [|split; [|split]].
  - rewrite (run_bind _ R1), (run_bind _ R2), (run_bind _ R3). exact R4.
  - exact (grows_trans A1 (grows_trans A2 (grows_trans A3 A4))).
  - unfold conditions_of. fold th.
    destruct (Qltb (inject_Z (m_spo2 m)) (spo2_low th)),
      (Qltb (heart_rate_high th) (inject_Z (m_heart_rate m))),
      (Qltb (respiratory_rate_high th) (inject_Z (m_respiratory_rate m))),
      (Qltb (temperature_high th) (m_temperature m)); reflexivity.
  - destruct (Qltb (inject_Z (m_spo2 m)) (spo2_low th)),
      (Qltb (heart_rate_high th) (inject_Z (m_heart_rate m))),
      (Qltb (respiratory_rate_high th) (inject_Z (m_respiratory_rate m))),
      (Qltb (temperature_high th) (m_temperature m)); cbn [app];
      repeat (apply Forall_cons;
              [apply well_formed_mk_alert; cbn; auto 10|]); apply Forall_nil.
Qed.

(** The correlator, with what it appends. *)
Lemma check_exacerbation_grows w entry st :
  exists (b : bool) st',
    check_exacerbation entry w st = (Ok b, st') /\
    (b = true <->
       spo2 (data st) <> [] /\
       In (lower (s_symptom entry)) respiratory_symptoms /\
       7 <= s_severity entry /\
       last (spo2 (data st)) 0 < 92) /\
    grows (alerts_only (if b then [mk_alert (w_clock w (epoch st)) "exacerbation"
                                     (Lit "Signes d'exacerbation possible")]
                        else [])) st st'.
Proof.
  destruct (check_exacerbation_run w entry st) as (b & st' & R & Hb & _).
  exists b. destruct b.
  - destruct (send_alert_grows w "exacerbation"
                (Lit "Signes d'exacerbation possible") st) as (st1 & R1 & G1).
    exists st1. split; [|split; [exact Hb|exact G1]].
    rewrite R. f_equal.
    (* the alert was sent from [st]: the branch taken is the one of R1 *)
    revert R. unfold check_exacerbation.
    rewrite run_bind with (a := st) (st' := st) by reflexivity.
    destruct (len (spo2 (data st)) >? 0); [|intros [=]].
    destruct (index (-1) (spo2 (data st))); [|intros [=]].
    destruct (str_in _ _ && _ && _); [|intros [=]].
    rewrite (run_bind _ R1). unfold ret. now intros [= <-].
  - exists st. split; [|split; [exact Hb|apply grows_refl]].
    rewrite R. f_equal.
    revert R. unfold check_exacerbation.
    rewrite run_bind with (a := st) (st' := st) by reflexivity.
    destruct (len (spo2 (data st)) >? 0); [|now intros [= <-]].
    destruct (index (-1) (spo2 (data st))); [|intros [=]].
    destruct (str_in _ _ && _ && _); [|now intros [= <-]].
    destruct (send_alert_grows w "exacerbation"
                (Lit "Signes d'exacerbation possible") st) as (st1 & R1 & _).
    rewrite (run_bind _ R1). unfold ret. intros [=].
Qed.

Lemma simulate_measurement_grows w st :
  let m := stamp (w_clock w (S (epoch st))) (w_sensor w (epoch st)) in
  exists st',
    simulate_measurement w st = (Ok m, st') /\
    grows {| d_measurements := [m]; d_symptoms := []; d_alerts := [] |} st st' /\
    epoch st' = S (S (epoch st)).
Proof.
  intros m. eexists. split.
  - unfold simulate_measurement, bind, read_sensor_data, now, modify,
      save_measurement, ret. cbn. reflexivity.
  - unfold grows, channels_grow. cbn. rewrite !app_nil_r. repeat split.
Qed.

Lemma sqlite_int_spec n : sqlite_int n = true <-> - 2 ^ 63 <= n < 2 ^ 63.
Proof.
  unfold sqlite_int. rewrite andb_true_iff, Z.leb_le, Z.ltb_lt. reflexivity.
Qed.

Lemma stored_app es1 es2 : stored (es1 ++ es2) = stored es1 ++ stored es2.
Proof. apply filter_app. Qed.

Lemma appends_refl st : appends no_delta st st.
Proof.
  unfold appends. cbn [no_delta d_measurements d_symptoms d_alerts map stored filter].
  rewrite !app_nil_r. repeat split; apply channels_grow_refl.
Qed.

Lemma appends_trans d1 d2 st st1 st2 :
  appends d1 st st1 -> appends d2 st1 st2 -> appends (delta_app d1 d2) st st2.
Proof.
  unfold appends.
  intros (a1 & a2 & a3 & a4 & a5 & a6 & a7 & a8 & a9 & a10)
         (b1 & b2 & b3 & b4 & b5 & b6 & b7 & b8 & b9 & b10).
  cbn [delta_app d_measurements d_symptoms d_alerts].
  rewrite b1, b2, b3, b5, b6, b7, b8, b9, b10, a1, a2, a3, a5, a6, a7, a8, a9, a10.
  rewrite stored_app, !map_app, !app_assoc.
  repeat match goal with |- _ /\ _ => split end; try reflexivity.
  eapply channels_grow_trans; eassumption.
Qed.
Arguments appends_trans {d1 d2 st st1 st2} _ _.

(** When the table accepts every symptom appended, [appends] is [grows]. *)
Lemma grows_appends d st st' :
  stored (d_symptoms d) = d_symptoms d -> grows d st st' -> appends d st st'.
Proof.
  unfold grows, appends. intros E H. rewrite E. exact H.
Qed.

(** [log_symptom] with a severity that the table accepts: what it appends. *)
Lemma log_symptom_grows w symptom severity notes st :
  sqlite_int severity = true ->
  let entry := {| s_timestamp := w_clock w (epoch st); s_symptom := symptom;
                  s_severity := severity; s_notes := notes |} in
  exists (b : bool) st',
    log_symptom symptom severity notes w st = (Ok entry, st') /\
    (b = true <->
       spo2 (data st) <> [] /\
       In (lower symptom) respiratory_symptoms /\
       7 <= severity /\
       last (spo2 (data st)) 0 < 92) /\
    grows {| d_measurements := []; d_symptoms := [entry];
             d_alerts := if b then [mk_alert (w_clock w (S (epoch st)))
                                      "exacerbation"
                                      (Lit "Signes d'exacerbation possible")]
                         else [] |} st st'.
Proof.
  intros Hsev entry.
  set (st2 := set_db (fun d =>
                 {| t_measurements := t_measurements d;
                    t_symptoms := t_symptoms d ++ [entry];
                    t_alerts := t_alerts d |})
               (set_data (fun d =>
                  {| timestamp := timestamp d; spo2 := spo2 d;
                     heart_rate := heart_rate d;
                     respiratory_rate := respiratory_rate d;
                     temperature := temperature d;
                     systolic_bp := systolic_bp d; diastolic_bp := diastolic_bp d;
                     symptoms := symptoms d ++ [Fmt "{} (severity: {})"
                                                  [Lit symptom; Int severity]];
                     activity_level := activity_level d |})
                 (set_symptom_log (fun l => l ++ [entry]) (tick st)))).
  assert (G2 : grows {| d_measurements := []; d_symptoms := [entry];
                        d_alerts := [] |} st st2).
  { unfold grows, channels_grow. cbn. rewrite !app_nil_r. repeat split. }
  destruct (check_exacerbation_grows w entry st2) as (b & st3 & R & Hb & G3).
  assert (Hrun : log_symptom symptom severity notes w st = (Ok entry, st3)).
  { unfold log_symptom.
    rewrite run_bind with (a := w_clock w (epoch st)) (st' := tick st)
      by reflexivity.
    fold entry.
    rewrite run_bind
      with (a := tt) (st' := set_symptom_log (fun l => l ++ [entry]) (tick st))
      by reflexivity.
    erewrite run_bind by reflexivity.
    rewrite run_bind with (a := tt) (st' := st2)
      by (unfold save_symptom; cbn [s_severity entry]; rewrite Hsev; reflexivity).
    rewrite (run_bind _ R). reflexivity. }
  exists b, st3. split; [exact Hrun|]. split; [exact Hb|].
  exact (grows_trans G2 G3).
Qed.

(** [log_symptom] with a severity that the table refuses: the insert raises
    once the entry is in memory, and the correlator is not run. *)
Lemma log_symptom_overflow w symptom severity notes st :
  sqlite_int severity = false ->
  let entry := {| s_timestamp := w_clock w (epoch st); s_symptom := symptom;
                  s_severity := severity; s_notes := notes |} in
  exists st',
    log_symptom symptom severity notes w st
    = (Raise (OverflowError "Python int too large to convert to SQLite INTEGER"),
       st') /\
    appends {| d_measurements := []; d_symptoms := [entry]; d_alerts := [] |}
            st st' /\
    db st' = db st.
Proof.
  intros Hsev entry. eexists. split; [|split].
  - unfold log_symptom.
    rewrite run_bind with (a := w_clock w (epoch st)) (st' := tick st)
      by reflexivity.
    fold entry.
    rewrite run_bind
      with (a := tt) (st' := set_symptom_log (fun l => l ++ [entry]) (tick st))
      by reflexivity.
    erewrite run_bind by reflexivity.
    erewrite run_bind_raise; [reflexivity|].
    unfold save_symptom. cbn [s_severity entry]. rewrite Hsev. reflexivity.
  - unfold appends, channels_grow, stored. cbn. rewrite Hsev.
    cbn. rewrite !app_nil_r. repeat split.
  - reflexivity.
Qed.

(** X1.  [log_symptom] with a severity that SQLite can store (a signed
    64-bit integer) never raises and returns the entry it was given, stamped
    with the clock.  It appends that one entry to the symptom log, its line
    to [data['symptoms']] and its row to the symptoms table, and leaves the
    measurement channels, the configuration and the identity alone.  It
    appends one "exacerbation" Alert, to the list and to the table, exactly
    when there is a measurement, the lowered label is one of the three, the
    severity is at least 7 and the last spo2 is below 92; it appends no other
    alert.  With any other severity the insert raises [OverflowError]: the
    entry and its line are in memory by then, the tables are left as they
    were and the correlator is not run, so no alert is sent. *)
Theorem log_symptom_appends_entry_and_correlates
    (w : World) (symptom : string) (severity : Z) (notes : string)
    (st : Monitor) :
  let entry := {| s_timestamp := w_clock w (epoch st); s_symptom := symptom;
                  s_severity := severity; s_notes := notes |} in
  let st' := exec (log_symptom symptom severity notes) w st in
  (- 2 ^ 63 <= severity < 2 ^ 63 ->
   result (log_symptom symptom severity notes) w st = Ok entry /\
   exists b : bool,
     (b = true <->
        spo2 (data st) <> [] /\
        In (lower symptom) respiratory_symptoms /\
        7 <= severity /\
        last (spo2 (data st)) 0 < 92) /\
     grows {| d_measurements := []; d_symptoms := [entry];
              d_alerts := if b then [mk_alert (w_clock w (S (epoch st)))
                                       "exacerbation"
                                       (Lit "Signes d'exacerbation possible")]
                          else [] |} st st') /\
  (severity < - 2 ^ 63 \/ 2 ^ 63 <= severity ->
   result (log_symptom symptom severity notes) w st
   = Raise (OverflowError "Python int too large to convert to SQLite INTEGER") /\
   symptom_log st' = symptom_log st ++ [entry] /\
   symptoms (data st') = symptoms (data st) ++ [symptom_line entry] /\
   channels_grow [] (data st) (data st') /\
   alerts st' = alerts st /\
   db st' = db st /\
   config st' = config st).
Proof.
  intros entry st'. split.
  - intros Hsev. apply sqlite_int_spec in Hsev.
    destruct (log_symptom_grows w symptom severity notes st Hsev)
      as (b & st1 & R & Hb & G).
    fold entry in R, G. unfold st', result, exec. rewrite R. cbn [fst snd].
    split; [reflexivity|]. exists b. split; [exact Hb|exact G].
  - intros Hsev.
    assert (Hno : sqlite_int severity = false).
    { destruct (sqlite_int severity) eqn:E; [|reflexivity].
      apply sqlite_int_spec in E. lia. }
    destruct (log_symptom_overflow w symptom severity notes st Hno)
      as (st1 & R & G & Hdb).
    fold entry in R, G. unfold st', result, exec. rewrite R. cbn [fst snd].
    destruct G as (_ & _ & Hc & Hch & Hsy & Hlog & Hal & _).
    cbn [d_measurements d_symptoms d_alerts map] in *.
    rewrite app_nil_r in Hal. repeat split; try assumption; apply Hch.
Qed.

Lemma log_symptom_appends_entry_and_correlates_witness :
  let st := after_readings default_config [95; 89] in
  result (log_symptom "toux" 8 "") (script [] []) st
  = Ok {| s_timestamp := 4; s_symptom := "toux"; s_severity := 8; s_notes := "" |}.
Proof.
  intros st.
  apply (proj1 (log_symptom_appends_entry_and_correlates
                  (script [] []) "toux" 8 "" st)).
  lia.
Defined.

(** [take_measurement], with what it appends. *)
Lemma take_measurement_grows w st :
  let m := stamp (w_clock w (S (epoch st))) (w_sensor w (epoch st)) in
  exists st' als,
    take_measurement w st = (Ok tt, st') /\
    grows {| d_measurements := [m]; d_symptoms := []; d_alerts := als |} st st' /\
    map a_type als = conditions_of (alert_thresholds (config st)) m /\
    Forall well_formed_alert als.
Proof.
  intros m.
  destruct (simulate_measurement_grows w st) as (st1 & R1 & G1 & _). fold m in R1, G1.
  destruct (check_measurement_alerts_grows w m st1) as (st2 & als & R2 & G2 & Ht & Hwf).
  exists st2, als. split; [|split; [|split; [|exact Hwf]]].
  - unfold take_measurement. rewrite (run_bind _ R1). exact R2.
  - exact (grows_trans G1 G2).
  - rewrite Ht. destruct G1 as (_ & _ & -> & _). reflexivity.
Qed.

(** X2.  [take_measurement] reads the sensors once, appends that reading,
    stamped with the clock, to every channel and to the measurements table,
    and then appends the alerts of the conditions that this very reading
    fires under the configured thresholds, in the order of the four tests;
    it never raises. *)
Theorem take_measurement_measures_then_evaluates (w : World) (st : Monitor) :
  let m := stamp (w_clock w (S (epoch st))) (w_sensor w (epoch st)) in
  let st' := exec take_measurement w st in
  result take_measurement w st = Ok tt /\
  exists als,
    grows {| d_measurements := [m]; d_symptoms := []; d_alerts := als |} st st' /\
    map a_type als = conditions_of (alert_thresholds (config st)) m /\
    Forall well_formed_alert als.
Proof.
  intros m st'.
  destruct (take_measurement_grows w st) as (st1 & als & R & G & Ht & Hwf).
  fold m in G, Ht. unfold st', result, exec. rewrite R. cbn [fst snd].
  split; [reflexivity|]. exists als. auto.
Qed.

Lemma predict_deterioration_eq w hours st :
  predict_deterioration hours w st = (result (predict_deterioration hours) w st, st).
Proof.
  rewrite <- (predict_deterioration_pure w hours st) at 3.
  unfold result, exec. now destruct (predict_deterioration hours w st).
Qed.

Lemma generate_comprehensive_report_same_object w df hours st :
  same_object st (exec (generate_comprehensive_report df hours) w st).
Proof.
  destruct df as [|first others]; [apply same_object_refl|].
  unfold exec, generate_comprehensive_report.
  rewrite run_bind with (a := st) (st' := st) by reflexivity.
  unfold bind at 1. rewrite predict_deterioration_eq.
  destruct (result (predict_deterioration 6) w st) as [p|e];
    [|apply same_object_refl].
  pose proof (detect_anomalies_same_object w st) as H. unfold exec in H.
  unfold bind. destruct (detect_anomalies w st) as ([a|e] & st1); exact H.
Qed.

Lemma exec_discard {A} (c : M A) w st :
  exec (_ <- c ;; ret tt) w st = exec c w st.
Proof. unfold exec, bind, ret. now destruct (c w st) as ([a|e] & st1). Qed.

Lemma stored_nil_grows d st st' :
  d_symptoms d = [] -> grows d st st' -> appends d st st'.
Proof. intros E. apply grows_appends. now rewrite E. Qed.

(** What one call appends. *)
Lemma perform_appends c w st :
  exists d, appends d st (exec (perform c) w st) /\
            Forall well_formed_alert (d_alerts d).
Proof.
  destruct c as [|symptom severity notes|m| |hours| |df hours]; cbn [perform];
    rewrite ?exec_discard.
  - destruct (simulate_measurement_grows w st) as (st1 & R & G & _).
    eexists. unfold exec. rewrite R.
    split; [refine (stored_nil_grows _ _ _ _ G); reflexivity|constructor].
  - destruct (sqlite_int severity) eqn:Hsev.
    + destruct (log_symptom_grows w symptom severity notes st Hsev)
        as (b & st1 & R & _ & G).
      eexists. unfold exec. rewrite R. split.
      * apply grows_appends; [|exact G].
        unfold stored. cbn. now rewrite Hsev.
      * destruct b; cbn [d_alerts];
          [apply Forall_cons; [apply well_formed_mk_alert; cbn; auto 10|]|];
          apply Forall_nil.
    + destruct (log_symptom_overflow w symptom severity notes st Hsev)
        as (st1 & R & G & _).
      eexists. unfold exec. rewrite R. split; [exact G|constructor].
  - destruct (check_measurement_alerts_grows w m st) as (st1 & als & R & G & _ & Hwf).
    eexists. unfold exec. rewrite R.
    split; [refine (stored_nil_grows _ _ _ _ G); reflexivity|exact Hwf].
  - destruct (take_measurement_grows w st) as (st1 & als & R & G & _ & Hwf).
    eexists. unfold exec. rewrite R.
    split; [refine (stored_nil_grows _ _ _ _ G); reflexivity|exact Hwf].
  - rewrite predict_deterioration_pure. exists no_delta.
    split; [apply appends_refl|constructor].
  - exists no_delta. split; [|constructor].
    refine (stored_nil_grows _ _ _ _ _); [reflexivity|].
    apply same_object_grows, detect_anomalies_same_object.
  - exists no_delta. split; [|constructor].
    refine (stored_nil_grows _ _ _ _ _); [reflexivity|].
    apply same_object_grows, generate_comprehensive_report_same_object.
Qed.

(** ** Invariants of any sequence of calls *)

Lemma run_appends cs w : forall st,
  exists d, appends d st (run cs w st) /\ Forall well_formed_alert (d_alerts d).
Proof.
  induction cs as [|c cs IH]; intros st.
  - exists no_delta. split; [apply appends_refl|constructor].
  - destruct (perform_appends c w st) as (d1 & G1 & W1).
    destruct (IH (exec (perform c) w st)) as (d2 & G2 & W2).
    exists (delta_app d1 d2). split.
    + exact (appends_trans G1 G2).
    + cbn [delta_app d_alerts]. apply Forall_app. now split.
Qed.


Lemma appends_aligned d st st' : appends d st st' -> aligned st -> aligned st'.
Proof.
  unfold appends, channels_grow, aligned.
  intros (_ & _ & _ & (c1 & c2 & c3 & c4 & c5 & c6 & c7 & c8) & _)
         (a1 & a2 & a3 & a4 & a5 & a6 & a7).
  rewrite c1, c2, c3, c4, c5, c6, c7, c8, !length_app, !length_map.
  repeat split; congruence.
Qed.

Lemma appends_in_step d st st' :
  appends d st st' -> in_step_with_store st -> in_step_with_store st'.
Proof.
  unfold appends, channels_grow, in_step_with_store.
  intros (_ & _ & _ & (c1 & c2 & c3 & c4 & c5 & c6 & c7 & c8)
            & g5 & g6 & g7 & g8 & g9 & g10)
         (a1 & a2 & a3 & a4 & a5 & a6 & a7 & a8 & a9 & a10 & a11).
  rewrite c1, c2, c3, c4, c5, c6, c7, c8, g5, g6, g7, g8, g9, g10.
  rewrite stored_app, !map_app.
  repeat split; congruence.
Qed.

Lemma stored_all es :
  Forall (fun e => - 2 ^ 63 <= s_severity e < 2 ^ 63) es -> stored es = es.
Proof.
  induction 1 as [|e es He _ IH]; [reflexivity|].
  unfold stored in *. cbn [filter].
  apply sqlite_int_spec in He. now rewrite He, IH.
Qed.

(** With aligned channels the scorer returns one of its three texts. *)
Lemma detect_anomalies_total w st :
  aligned st ->
  exists t, result detect_anomalies w st = Ok t /\
            (t = insufficient_for_anomalies \/ t = no_anomaly \/
             exists c, 2 < c /\ t = anomalies_detected c).
Proof.
  intros (_ & Hhr & Hrr & _).
  destruct (Z_lt_le_dec (len (spo2 (data st))) 10) as [Hs|Hs].
  - unfold result. rewrite (detect_anomalies_short w st Hs).
    eexists. split; [reflexivity|auto].
  - assert (H2 : 10 <= len (heart_rate (data st))) by (unfold len in *; lia).
    assert (H3 : 10 <= len (respiratory_rate (data st))) by (unfold len in *; lia).
    assert (R := detect_anomalies_run w st Hs H2 H3). cbv zeta in R.
    unfold result. rewrite R. cbn [fst].
    destruct (_ >? 2) eqn:Hc; eexists; (split; [reflexivity|]); auto.
    right. right. eexists. split; [|reflexivity]. now apply Z.gtb_lt.
Qed.

(** X4.  Calls keep the measurement channels aligned: if they hold the same
    number of samples before, they do after.  On a monitor with aligned
    channels the scorer never raises: it returns "insufficient data", "no
    anomaly" or an "anomalies" text whose count exceeds 2. *)
Theorem scorer_never_raises_after_calls
    (cs : list Call) (w w' : World) (st : Monitor) (Hal : aligned st) :
  aligned (run cs w st) /\
  exists t, result detect_anomalies w' (run cs w st) = Ok t /\
            (t = insufficient_for_anomalies \/ t = no_anomaly \/
             exists c, 2 < c /\ t = anomalies_detected c).
Proof.
  destruct (run_appends cs w st) as (d & G & _).
  assert (Hal' : aligned (run cs w st)) by (eapply appends_aligned; eassumption).
  split; [exact Hal'|]. now apply detect_anomalies_total.
Qed.

Lemma scorer_never_raises_after_calls_witness :
  aligned (run sample_session (script [90; 97] []) (new_monitor default_config)) /\
  exists t, result detect_anomalies (script [] [])
              (run sample_session (script [90; 97] []) (new_monitor default_config))
            = Ok t.
Proof.
  assert (Hal : aligned (new_monitor default_config)) by (repeat split).
  destruct (scorer_never_raises_after_calls sample_session (script [90; 97] [])
              (script [] []) (new_monitor default_config) Hal) as (H & t & Ht & _).
  split; [exact H|]. now exists t.
Defined.

(** X5.  Calls keep memory and store in step: if the channels and the alert
    list are the columns of their tables, the symptom lines are those of
    the symptom log and the symptoms table holds the entries of the log
    whose severity SQLite can store, before a sequence of calls, then so it
    is after it.  The symptom log and the symptoms table then agree when
    every severity in the log is a signed 64-bit integer; an entry logged
    with another severity stays in memory without a row. *)
Theorem calls_keep_memory_and_store_in_step
    (cs : list Call) (w : World) (st : Monitor) (Hm : in_step_with_store st) :
  in_step_with_store (run cs w st) /\
  (Forall (fun e => - 2 ^ 63 <= s_severity e < 2 ^ 63) (symptom_log (run cs w st)) ->
   t_symptoms (db (run cs w st)) = symptom_log (run cs w st)).
Proof.
  destruct (run_appends cs w st) as (d & G & _).
  assert (H : in_step_with_store (run cs w st))
    by (eapply appends_in_step; eassumption).
  split; [exact H|]. intros Hall.
  destruct H as (_ & _ & _ & _ & _ & _ & _ & _ & _ & Hsy & _).
  rewrite Hsy. now apply stored_all.
Qed.

Lemma calls_keep_memory_and_store_in_step_witness :
  in_step_with_store
    (run sample_session (script [90; 97] []) (new_monitor default_config)).
Proof.
  apply calls_keep_memory_and_store_in_step. repeat split.
Defined.

Lemma well_formed_alert_facts a :
  well_formed_alert a ->
  (a_severity a = "high" <-> a_type a = "exacerbation") /\
  (a_severity a = "medium" <-> a_type a <> "exacerbation") /\
  a_type a <> "anomaly" /\ a_type a <> "forecast_deterioration".
Proof.
  intros (Hin & Hsev). rewrite Hsev.
  cbn in Hin. destruct Hin as [<-|[<-|[<-|[<-|[<-|[]]]]]]; cbn;
    repeat split; try discriminate; try reflexivity; intros H; try discriminate;
    try (exfalso; apply H; reflexivity).
Qed.

(** X6.  Calls only ever add alerts of the five types that the code sends
    (the four threshold conditions and "exacerbation"), classified "high"
    for an exacerbation and "medium" otherwise: if the alert list holds only
    such alerts before a sequence of calls, it does after it.  So no call
    produces an alert of type "anomaly" or "forecast_deterioration", nor
    one of a severity other than "high" and "medium". *)
Theorem calls_add_well_formed_alerts
    (cs : list Call) (w : World) (st : Monitor)
    (Hwf : Forall well_formed_alert (alerts st)) :
  Forall well_formed_alert (alerts (run cs w st)) /\
  forall a, In a (alerts (run cs w st)) ->
    (a_severity a = "high" <-> a_type a = "exacerbation") /\
    (a_severity a = "medium" <-> a_type a <> "exacerbation") /\
    a_type a <> "anomaly" /\ a_type a <> "forecast_deterioration".
Proof.
  destruct (run_appends cs w st) as (d & G & W).
  assert (H : Forall well_formed_alert (alerts (run cs w st))).
  { destruct G as (_ & _ & _ & _ & _ & _ & -> & _). apply Forall_app. now split. }
  split; [exact H|]. intros a Ha. apply well_formed_alert_facts.
  rewrite Forall_forall in H. now apply H.
Qed.

Lemma calls_add_well_formed_alerts_witness :
  Forall well_formed_alert
    (alerts (run sample_session (script [90; 97] []) (new_monitor default_config))).
Proof.
  apply calls_add_well_formed_alerts. constructor.
Defined.

(** ** Edge cases of the forecaster *)

(** The forecaster, statement by statement. *)
Lemma predict_deterioration_unfold w hours st :
  let ws := window_size (prediction_settings (config st)) in
  let threshold := spo2_low (alert_thresholds (config st)) in
  let y := slice_from (- ws) (spo2 (data st)) in
  result (predict_deterioration hours) w st =
    if len (spo2 (data st)) <? ws then Ok insufficient_for_prediction
    else
      match LinearRegression.fit (arange 0 (len y)) y with
      | Raise e => Raise e
      | Ok model =>
          match LinearRegression.predict model (arange (len y) (len y + hours)) with
          | Raise e => Raise e
          | Ok predictions =>
              Ok (if existsb (fun pred => Qltb pred threshold) predictions
                  then deterioration hours threshold else no_deterioration)
          end
      end.
Proof.
  intros ws threshold y.
  unfold result, predict_deterioration, bind, get, lift, ret. cbn.
  fold ws threshold y.
  destruct (len (spo2 (data st)) <? ws); [reflexivity|].
  destruct (LinearRegression.fit _ _); [|reflexivity].
  destruct (LinearRegression.predict _ _); [|reflexivity].
  destruct (existsb _ _); reflexivity.
Qed.

Lemma fit_nonempty X y :
  X <> [] ->
  LinearRegression.fit X y
  = Ok (LinearRegression.solve (map inject_Z X) (map inject_Z y)).
Proof. destruct X; [contradiction|reflexivity]. Qed.

Lemma arange_nil_iff a b : arange a b = [] <-> b <= a.
Proof.
  split; intros H.
  - apply (f_equal (@List.length Z)) in H. rewrite length_arange in H.
    cbn in H. lia.
  - apply length_zero_iff_nil. rewrite length_arange. lia.
Qed.

(** X7.  With a window of at least one sample the forecaster raises in one
    case only: the history fills the window and the horizon [hours] is zero
    or negative; the exception is then the [ValueError] of a prediction asked
    for no sample.  In every other case it returns one of its three texts. *)
Theorem forecaster_raises_only_without_horizon
    (w : World) (hours : Z) (st : Monitor)
    (Hws : 1 <= window_size (prediction_settings (config st))) :
  let ws := window_size (prediction_settings (config st)) in
  let threshold := spo2_low (alert_thresholds (config st)) in
  let forecast := result (predict_deterioration hours) w st in
  (ws <= len (spo2 (data st)) /\ hours <= 0 ->
   forecast = Raise LinearRegression.no_sample) /\
  (len (spo2 (data st)) < ws \/ 1 <= hours ->
   forecast = Ok insufficient_for_prediction \/
   forecast = Ok (deterioration hours threshold) \/
   forecast = Ok no_deterioration).
Proof.
  intros ws threshold forecast.
  assert (U := predict_deterioration_unfold w hours st). cbv zeta in U.
  fold ws threshold forecast in U.
  destruct (Z_lt_le_dec (len (spo2 (data st))) ws) as [Hs|Hs].
  - replace (len (spo2 (data st)) <? ws) with true in U
      by (symmetry; apply Z.ltb_lt; lia).
    split; [lia|auto].
  - replace (len (spo2 (data st)) <? ws) with false in U
      by (symmetry; apply Z.ltb_ge; lia).
    assert (Hy : len (slice_from (- ws) (spo2 (data st))) = ws)
      by (apply slice_from_suffix; fold ws; lia).
    rewrite Hy, fit_nonempty in U by (rewrite arange_nil_iff; fold ws; lia).
    unfold LinearRegression.predict in U.
    destruct (arange ws (ws + hours)) as [|k ks] eqn:E.
    + apply arange_nil_iff in E. split; [intros _; exact U|lia].
    + assert (1 <= hours).
      { destruct (Z_lt_le_dec hours 1) as [Hh|Hh]; [|exact Hh].
        assert (E' : arange ws (ws + hours) = []) by (apply arange_nil_iff; lia).
        rewrite E in E'. discriminate. }
      split; [lia|]. intros _. rewrite U.
      destruct (existsb _ _); auto.
Qed.

Lemma forecaster_raises_only_without_horizon_witness :
  let st := after_readings (with_window_size 5 default_config)
              [98; 96; 94; 92; 90] in
  result (predict_deterioration (-1)) (script [] []) st
  = Raise LinearRegression.no_sample.
Proof.
  intros st.
  assert (Hws : 1 <= window_size (prediction_settings (config st)))
    by (vm_compute; discriminate).
  apply (proj1 (forecaster_raises_only_without_horizon (script [] []) (-1) st Hws)).
  split; vm_compute; discriminate.
Defined.

(** X8.  A window of 0 does not mean "no window": the history is never
    shorter than it, and [l[-0:]] is the whole list.  On an empty history
    the fit raises; otherwise the forecaster does what it does with a window
    as long as the history, which it fits from its first sample on. *)
Theorem forecaster_window_zero_takes_whole_history
    (w : World) (hours : Z) (st : Monitor)
    (Hws : window_size (prediction_settings (config st)) = 0) :
  (spo2 (data st) = [] ->
   result (predict_deterioration hours) w st = Raise LinearRegression.no_sample) /\
  (spo2 (data st) <> [] ->
   result (predict_deterioration hours) w st
   = result (predict_deterioration hours) w
       (set_config (with_window_size (len (spo2 (data st))) (config st)) st)).
Proof.
  assert (U := predict_deterioration_unfold w hours st). cbv zeta in U.
  rewrite Hws in U. split.
  - intros E. rewrite E in U. exact U.
  - intros Hne.
    assert (U' := predict_deterioration_unfold w hours
                    (set_config (with_window_size (len (spo2 (data st))) (config st)) st)).
    cbv zeta in U'. cbn [set_config config data with_window_size
                         prediction_settings window_size alert_thresholds] in U'.
    rewrite U, U'.
    assert (Hpos : 0 < len (spo2 (data st)))
      by (destruct (spo2 (data st)); [contradiction|unfold len; cbn; lia]).
    replace (len (spo2 (data st)) <? 0) with false
      by (symmetry; apply Z.ltb_ge; lia).
    rewrite Z.ltb_irrefl.
    assert (E0 : slice_from (- 0) (spo2 (data st)) = spo2 (data st)).
    { unfold slice_from. cbn [Z.opp Z.ltb Z.compare].
      rewrite Z.min_l by lia. reflexivity. }
    assert (E1 : slice_from (- len (spo2 (data st))) (spo2 (data st))
                 = spo2 (data st)).
    { unfold slice_from.
      replace (- len (spo2 (data st)) <? 0) with true
        by (symmetry; apply Z.ltb_lt; lia).
      rewrite Z.add_opp_diag_r. reflexivity. }
    rewrite E0, E1. reflexivity.
Qed.

Lemma forecaster_window_zero_takes_whole_history_witness :
  let st := after_readings (with_window_size 0 default_config) [98; 96; 94] in
  result (predict_deterioration 3) (script [] []) st = Ok (deterioration 3 92).
Proof.
  intros st.
  assert (Hws : window_size (prediction_settings (config st)) = 0) by reflexivity.
  rewrite (proj2 (forecaster_window_zero_takes_whole_history
                    (script [] []) 3 st Hws)) by discriminate.
  vm_compute. reflexivity.
Defined.

(** ** The mail *)

(** X9.  The mail is attempted only when it is enabled and both a sender
    and a recipient are configured.  Otherwise [send_alert] opens no SMTP
    session and prints the alert line only, without a word about the mail
    that was not sent.  When the mail is attempted, one line more is printed:
    the success line if the session went through, the error line with the
    text of the exception if it raised. *)
Theorem mail_is_attempted_only_when_configured
    (w : World) (alert_type : string) (message : text) (st : Monitor) :
  let cfg := email_alerts (config st) in
  let st' := exec (send_alert alert_type message) w st in
  let alert_line :=
    Fmt "🔴 ALERTE: {} - {}" [message; Tm (w_clock w (S (epoch st)))] in
  (enabled cfg = false \/ sender_email cfg = "" \/ recipient_emails cfg = [] ->
   stdout st' = stdout st ++ [alert_line] /\ epoch st' = (2 + epoch st)%nat) /\
  (enabled cfg = true -> sender_email cfg <> "" -> recipient_emails cfg <> [] ->
   stdout st' =
     stdout st ++
       [alert_line;
        match w_smtp w (3 + epoch st)%nat with
        | None => Lit "📧 Email d'alerte envoyé avec succès"
        | Some e => Fmt "❌ Erreur lors de l'envoi de l'email: {}" [Lit (str_of_exn e)]
        end] /\
   epoch st' = (4 + epoch st)%nat).
Proof.
  intros cfg st' alert_line. unfold st', exec, send_alert, save_alert, bind, now,
    modify, print, get. cbn. fold cfg. split.
  - intros H. destruct (enabled cfg) eqn:Hen; [|cbn; auto].
    unfold send_email_alert, try_except, bind, get, now, smtp_session, print,
      modify, ret. cbn. fold cfg.
    destruct H as [H|[H|H]]; [discriminate|rewrite H|rewrite H]; cbn; auto.
    rewrite orb_true_r. cbn. auto.
  - intros Hen Hs Hr. rewrite Hen.
    unfold send_email_alert, try_except, bind, get, now, smtp_session, print,
      modify, ret. cbn. fold cfg.
    apply String.eqb_neq in Hs. rewrite Hs.
    destruct (recipient_emails cfg) as [|r rs]; [contradiction|]. cbn.
    change (S (S (S (epoch st)))) with (3 + epoch st)%nat.
    destruct (w_smtp w (3 + epoch st)) as [e|]; cbn; rewrite <- app_assoc; auto.
Qed.

Lemma mail_is_attempted_only_when_configured_witness :
  let st := new_monitor default_config in
  epoch (exec (send_alert "spo2_low" (Lit "SpO2 basse")) (script [] []) st) = 2%nat.
Proof.
  intros st.
  destruct (mail_is_attempted_only_when_configured (script [] []) "spo2_low"
              (Lit "SpO2 basse") st) as (H & _).
  apply H. left. reflexivity.
Defined.

(** ** Windows that lie on a line *)

Lemma Qltb_proper_l (x x' y : Q) : (x == x')%Q -> Qltb x y = Qltb x' y.
Proof.
  intros E. destruct (Qltb x' y) eqn:H.
  - apply Qltb_lt. apply Qltb_lt in H. now rewrite E.
  - apply Qltb_ge. apply Qltb_ge in H. now rewrite E.
Qed.

Lemma Qsum_zero_terms {A} (f : A -> Q) (l : list A) :
  (Qsum (map (fun p => f p * f p) l) == 0)%Q ->
  forall p, In p l -> (f p == 0)%Q.
Proof.
  induction l as [|q l IH]; cbn [map]; [intros _ p []|].
  rewrite Qsum_cons. intros H p Hp.
  assert (H0 : (0 <= Qsum (map (fun p => f p * f p) l))%Q)
    by (apply Qsum_nonneg; intros r; apply Qsquare_nonneg).
  pose proof (Qsquare_nonneg (f q)) as Hq.
  assert (Hl : (Qsum (map (fun p => f p * f p) l) == 0)%Q) by lra.
  destruct Hp as [<-|Hp]; [|now apply IH].
  assert (Hqq : (f q * f q == 0)%Q) by lra.
  destruct (Qeq_dec (f q) 0) as [E|E]; [exact E|].
  exfalso. apply Qmult_integral in Hqq. tauto.
Qed.

Lemma Qsum_map_zero {A} (f : A -> Q) (l : list A) :
  (forall p, In p l -> (f p == 0)%Q) -> (Qsum (map f l) == 0)%Q.
Proof.
  induction l as [|q l IH]; intros H; cbn [map]; [reflexivity|].
  rewrite Qsum_cons, (H q (or_introl eq_refl)), IH.
  - ring.
  - intros p Hp. apply H. now right.
Qed.

Lemma combine_map_same {A B C} (f : A -> B) (g : A -> C) (l : list A) :
  combine (map f l) (map g l) = map (fun i => (f i, g i)) l.
Proof. induction l as [|x l IH]; cbn; [reflexivity|now rewrite IH]. Qed.

(** Least squares finds the line that the samples lie on, as soon as there
    are two of them. *)
Lemma solve_collinear (c d n : Z) :
  2 <= n ->
  let X := arange 0 n in
  let m := LinearRegression.solve
             (map inject_Z X) (map inject_Z (map (fun i => c + d * i) X)) in
  (LinearRegression.coef_ m == inject_Z d)%Q /\
  (LinearRegression.intercept_ m == inject_Z c)%Q.
Proof.
  intros Hn X m.
  set (xs := map inject_Z X).
  set (ys := map inject_Z (map (fun i => c + d * i) X)).
  assert (Hlen : List.length xs = List.length ys)
    by (unfold xs, ys; now rewrite !length_map).
  assert (Hne : xs <> []).
  { unfold xs, X. intros E. apply map_eq_nil in E. apply arange_nil_iff in E. lia. }
  pose proof (LinearRegression_solve_minimal xs ys Hlen Hne
                (inject_Z d) (inject_Z c)) as Hmin.
  fold m in Hmin.
  set (a := LinearRegression.coef_ m) in *.
  set (b := LinearRegression.intercept_ m) in *.
  assert (Epts : combine xs ys
                 = map (fun i => (inject_Z i, inject_Z (c + d * i))) X).
  { unfold xs, ys. rewrite map_map. apply combine_map_same. }
  assert (Hzero : (sse (inject_Z d) (inject_Z c) xs ys == 0)%Q).
  { unfold sse. apply Qsum_map_zero. rewrite Epts. intros p Hp.
    apply in_map_iff in Hp as (i & <- & _). cbn [fst snd].
    rewrite inject_Z_plus, inject_Z_mult. ring. }
  assert (Hpos : (0 <= sse a b xs ys)%Q)
    by (apply Qsum_nonneg; intros p; apply Qsquare_nonneg).
  assert (Hfit : (sse a b xs ys == 0)%Q)
    by (apply Qle_antisym; [rewrite <- Hzero; exact Hmin|exact Hpos]).
  pose proof (Qsum_zero_terms (fun p => snd p - (a * fst p + b))%Q _ Hfit) as Hres.
  rewrite Epts in Hres.
  assert (H0 : (inject_Z (c + d * 0) - (a * inject_Z 0 + b) == 0)%Q).
  { apply (Hres (inject_Z 0, inject_Z (c + d * 0))).
    apply in_map_iff. exists 0. split; [reflexivity|]. apply In_arange. lia. }
  assert (H1 : (inject_Z (c + d * 1) - (a * inject_Z 1 + b) == 0)%Q).
  { apply (Hres (inject_Z 1, inject_Z (c + d * 1))).
    apply in_map_iff. exists 1. split; [reflexivity|]. apply In_arange. lia. }
  rewrite inject_Z_plus, inject_Z_mult in H0, H1.
  change (inject_Z 0) with 0%Q in H0. change (inject_Z 1) with 1%Q in H1.
  split; lra.
Qed.

Lemma existsb_ext_in {A} (f g : A -> bool) (l : list A) :
  (forall x, In x l -> f x = g x) -> existsb f l = existsb g l.
Proof.
  induction l as [|x l IH]; intros H; cbn; [reflexivity|].
  rewrite (H x (or_introl eq_refl)), IH; [reflexivity|].
  intros y Hy. apply H. now right.
Qed.

Lemma existsb_arange_iff (f : Z -> bool) (a b : Z) :
  existsb f (arange a b) = true <-> exists k, a <= k < b /\ f k = true.
Proof.
  rewrite existsb_exists. split; intros (k & H1 & H2); exists k; split; auto;
    now apply In_arange.
Qed.

Lemma Forall2_In_l {A B} (R : A -> B -> Prop) (l : list A) (l' : list B) x :
  Forall2 R l l' -> In x l -> exists y, In y l' /\ R x y.
Proof.
  induction 1 as [|a b l l' Hab _ IH]; intros Hx; [destruct Hx|].
  destruct Hx as [<-|Hx].
  - exists b. split; [now left|exact Hab].
  - destruct (IH Hx) as (y & Hy & Hr). exists y. split; [now right|exact Hr].
Qed.

Lemma Forall2_In_r {A B} (R : A -> B -> Prop) (l : list A) (l' : list B) y :
  Forall2 R l l' -> In y l' -> exists x, In x l /\ R x y.
Proof.
  induction 1 as [|a b l l' Hab _ IH]; intros Hy; [destruct Hy|].
  destruct Hy as [<-|Hy].
  - exists a. split; [now left|exact Hab].
  - destruct (IH Hy) as (x & Hx & Hr). exists x. split; [now right|exact Hr].
Qed.

(** The least-squares value of samples on a straight line is on the line. *)
Lemma least_squares_value_collinear (c d n k : Z) :
  2 <= n ->
  Qeq (least_squares_value (arange 0 n) (map (fun i => c + d * i) (arange 0 n)) k)
      (inject_Z (c + d * k)).
Proof.
  intros Hn. destruct (solve_collinear c d n Hn) as (Ea & Eb).
  unfold least_squares_value, LinearRegression.line.
  rewrite Ea, Eb, inject_Z_plus, inject_Z_mult. ring.
Qed.

(** X10.  When the samples of the window lie on a straight line,
    [y(i) = c + d i] at the indices [0 .. window_size - 1] of a window of two
    samples or more, the least-squares line is that very line.  So, whatever
    the regression library, as long as it answers within [tol] of the
    least-squares values: the forecaster reports a deterioration when
    [c + d k] is more than [tol] below the threshold at one of the indices
    [window_size .. window_size + hours - 1], and none when [c + d k] is at
    least [tol] above the threshold at all of them.  A falling window
    ([d <= 0], a flat one included) is so decided by the last extrapolated
    point and a rising one ([0 <= d]) by the first.  Within [tol] of the
    threshold the report depends on the rounding of the library.  In every
    case the forecaster reports one of the two. *)
Theorem forecast_of_a_straight_window
    (lib : Estimator) (w : World) (hours c d : Z) (tol : Q) (st : Monitor)
    (predictions : list Q)
    (Hws : 2 <= window_size (prediction_settings (config st)))
    (Hlen : window_size (prediction_settings (config st)) <= len (spo2 (data st)))
    (Hh : 1 <= hours)
    (Hline : slice_from (- window_size (prediction_settings (config st)))
                        (spo2 (data st))
             = map (fun i => c + d * i)
                   (arange 0 (window_size (prediction_settings (config st)))))
    (Hans : answers lib
              (arange 0 (window_size (prediction_settings (config st))))
              (slice_from (- window_size (prediction_settings (config st)))
                          (spo2 (data st)))
              (arange (window_size (prediction_settings (config st)))
                      (window_size (prediction_settings (config st)) + hours))
              predictions)
    (Htol : within tol
              (arange 0 (window_size (prediction_settings (config st))))
              (slice_from (- window_size (prediction_settings (config st)))
                          (spo2 (data st)))
              (arange (window_size (prediction_settings (config st)))
                      (window_size (prediction_settings (config st)) + hours))
              predictions) :
  let ws := window_size (prediction_settings (config st)) in
  let threshold := spo2_low (alert_thresholds (config st)) in
  let forecast := result (predict_deterioration_with lib hours) w st in
  ((exists k, ws <= k < ws + hours /\
              (inject_Z (c + d * k) < threshold - tol)%Q) ->
   forecast = Ok (deterioration hours threshold)) /\
  ((forall k, ws <= k < ws + hours ->
              (threshold + tol <= inject_Z (c + d * k))%Q) ->
   forecast = Ok no_deterioration) /\
  (d <= 0 ->
   ((inject_Z (c + d * (ws + hours - 1)) < threshold - tol)%Q ->
    forecast = Ok (deterioration hours threshold)) /\
   ((threshold + tol <= inject_Z (c + d * (ws + hours - 1)))%Q ->
    forecast = Ok no_deterioration)) /\
  (0 <= d ->
   ((inject_Z (c + d * ws) < threshold - tol)%Q ->
    forecast = Ok (deterioration hours threshold)) /\
   ((threshold + tol <= inject_Z (c + d * ws))%Q ->
    forecast = Ok no_deterioration)) /\
  (forecast = Ok (deterioration hours threshold) \/ forecast = Ok no_deterioration).
Proof.
  intros ws threshold forecast.
  assert (Hws1 : 1 <= window_size (prediction_settings (config st))) by lia.
  assert (R := predict_deterioration_with_run lib w hours st predictions).
  cbv zeta in R. specialize (R Hws1 Hlen Hans).
  fold ws threshold in R, Htol, Hline, Hws. rewrite Hline in Htol.
  clear Hans Hline Hlen.
  assert (Hval : forall k p,
             Qle (Qabs (p - least_squares_value (arange 0 ws)
                               (map (fun i => c + d * i) (arange 0 ws)) k)) tol ->
             (inject_Z (c + d * k) - tol <= p /\ p <= inject_Z (c + d * k) + tol)%Q).
  { intros k p H. eapply within_upper; [exact H|].
    now apply least_squares_value_collinear. }
  assert (Hlow : (exists k, ws <= k < ws + hours /\
                            (inject_Z (c + d * k) < threshold - tol)%Q) ->
                 forecast = Ok (deterioration hours threshold)).
  { intros (k & Hk & Hlt). unfold forecast, result. rewrite R. cbn [fst].
    destruct (Forall2_In_l _ _ _ k Htol) as (p & Hp & Hr);
      [apply In_arange; exact Hk|].
    apply Hval in Hr as (_ & Hr).
    replace (existsb (fun pred => Qltb pred threshold) predictions) with true;
      [reflexivity|].
    symmetry. apply existsb_exists. exists p. split; [exact Hp|].
    apply Qltb_lt. lra. }
  assert (Hhigh : (forall k, ws <= k < ws + hours ->
                             (threshold + tol <= inject_Z (c + d * k))%Q) ->
                  forecast = Ok no_deterioration).
  { intros Hall. unfold forecast, result. rewrite R. cbn [fst].
    destruct (existsb _ _) eqn:Hex; [|reflexivity]. exfalso.
    apply existsb_exists in Hex as (p & Hp & Hlt). apply Qltb_lt in Hlt.
    destruct (Forall2_In_r _ _ _ p Htol Hp) as (k & Hk & Hr).
    apply In_arange in Hk. apply Hval in Hr as (Hr & _).
    specialize (Hall k Hk). lra. }
  split; [exact Hlow|]. split; [exact Hhigh|]. split; [|split].
  - intros Hd. split.
    + intros Hlt. apply Hlow. exists (ws + hours - 1). split; [lia|exact Hlt].
    + intros Hge. apply Hhigh. intros k Hk.
      eapply Qle_trans; [exact Hge|]. rewrite <- Zle_Qle. nia.
  - intros Hd. split.
    + intros Hlt. apply Hlow. exists ws. split; [lia|exact Hlt].
    + intros Hge. apply Hhigh. intros k Hk.
      eapply Qle_trans; [exact Hge|]. rewrite <- Zle_Qle. nia.
  - unfold forecast, result. rewrite R. cbn [fst]. destruct (existsb _ _); auto.
Qed.

Lemma forecast_of_a_straight_window_witness :
  let st := after_readings (with_window_size 5 default_config)
              [98; 96; 94; 92; 90] in
  result (predict_deterioration_with exact_least_squares 3) (script [] []) st
  = Ok (deterioration 3 92).
Proof.
  intros st.
  assert (Hws : 2 <= window_size (prediction_settings (config st)))
    by (vm_compute; discriminate).
  assert (Hlen : window_size (prediction_settings (config st))
                 <= len (spo2 (data st))) by (vm_compute; discriminate).
  assert (Hh : 1 <= 3) by lia.
  assert (Hline : slice_from (- window_size (prediction_settings (config st)))
                             (spo2 (data st))
                  = map (fun i => 98 + -2 * i)
                        (arange 0 (window_size (prediction_settings (config st)))))
    by reflexivity.
  assert (Hans : answers exact_least_squares
                   (arange 0 (window_size (prediction_settings (config st))))
                   (slice_from (- window_size (prediction_settings (config st)))
                               (spo2 (data st)))
                   (arange (window_size (prediction_settings (config st)))
                           (window_size (prediction_settings (config st)) + 3))
                   (map (least_squares_value [0; 1; 2; 3; 4] [98; 96; 94; 92; 90])
                        [5; 6; 7])).
  { eexists. split; reflexivity. }
  assert (Htol : within 1
                   (arange 0 (window_size (prediction_settings (config st))))
                   (slice_from (- window_size (prediction_settings (config st)))
                               (spo2 (data st)))
                   (arange (window_size (prediction_settings (config st)))
                           (window_size (prediction_settings (config st)) + 3))
                   (map (least_squares_value [0; 1; 2; 3; 4] [98; 96; 94; 92; 90])
                        [5; 6; 7])).
  { repeat constructor; vm_compute; discriminate. }
  destruct (forecast_of_a_straight_window exact_least_squares (script [] []) 3
              98 (-2) 1 st _ Hws Hlen Hh Hline Hans Htol)
    as (_ & _ & Hfall & _).
  apply Hfall; [lia|]. vm_compute. reflexivity.
Defined.

Lemma existsb_const {A} (b : bool) (l : list A) :
  l <> [] -> existsb (fun _ => b) l = b.
Proof.
  induction l as [|x [|y l'] IH]; intros Hne; [contradiction|apply orb_false_r|].
  change (existsb (fun _ => b) (x :: y :: l'))
    with (b || existsb (fun _ => b) (y :: l')).
  rewrite IH by discriminate. now destruct b.
Qed.

Lemma skipn_last {A} (l : list A) (d : A) :
  l <> [] -> skipn (List.length l - 1) l = [last l d].
Proof.
  induction l as [|a [|b l'] IH]; intros Hne; [contradiction|reflexivity|].
  replace (List.length (a :: b :: l') - 1)%nat with (S (List.length (b :: l') - 1))
    by (cbn [List.length]; lia).
  cbn [skipn]. rewrite IH by discriminate. reflexivity.
Qed.

(** X11.  With a window of one sample there is no trend to fit: the slope
    is 0 and the line stays at the last spo2 sample, so for any horizon of
    an hour or more the forecaster reports a deterioration exactly when that
    sample is already below the threshold, and none otherwise. *)
Theorem forecast_of_a_single_sample_window
    (w : World) (hours : Z) (st : Monitor)
    (Hws : window_size (prediction_settings (config st)) = 1)
    (Hne : spo2 (data st) <> [])
    (Hh : 1 <= hours) :
  let threshold := spo2_low (alert_thresholds (config st)) in
  let latest := inject_Z (last (spo2 (data st)) 0) in
  let forecast := result (predict_deterioration hours) w st in
  (forecast = Ok (deterioration hours threshold) <-> (latest < threshold)%Q) /\
  (forecast = Ok no_deterioration <-> (threshold <= latest)%Q).
Proof.
  intros threshold latest forecast.
  assert (Hlen : 1 <= len (spo2 (data st)))
    by (destruct (spo2 (data st)); [contradiction|unfold len; cbn; lia]).
  assert (R := predict_deterioration_run w hours st). cbv zeta in R.
  rewrite Hws in R. specialize (R ltac:(lia) Hlen Hh).
  assert (Ey : slice_from (- (1)) (spo2 (data st)) = [last (spo2 (data st)) 0]).
  { destruct (slice_from_suffix 1 (spo2 (data st)) ltac:(lia)) as (E & _).
    rewrite E. unfold last_n. now apply skipn_last. }
  rewrite Ey in R. fold threshold in R.
  set (v := last (spo2 (data st)) 0) in *.
  set (m := LinearRegression.solve (map inject_Z (arange 0 1)) (map inject_Z [v])) in *.
  assert (Hmx : (Qmean [inject_Z 0] == 0)%Q) by reflexivity.
  assert (Hmy : (Qmean [inject_Z v] == inject_Z v)%Q).
  { unfold Qmean. cbn [Qsum fold_right len List.length Z.of_nat Pos.of_succ_nat].
    change (inject_Z 1) with 1%Q. field. }
  assert (Ea : (LinearRegression.coef_ m == 0)%Q).
  { unfold m, LinearRegression.solve, LinearRegression.sxy.
    change (arange 0 1) with [0].
    cbn [LinearRegression.coef_ map combine Qsum fold_right fst snd].
    rewrite Hmx, Hmy. unfold Qdiv. ring. }
  assert (Eb : (LinearRegression.intercept_ m == inject_Z v)%Q).
  { change (LinearRegression.intercept_ m)
      with (Qmean [inject_Z v] - LinearRegression.coef_ m * Qmean [inject_Z 0])%Q.
    rewrite Ea, Hmx, Hmy. ring. }
  assert (Hex : existsb (fun k => Qltb (LinearRegression.line m (inject_Z k)) threshold)
                        (arange 1 (1 + hours))
                = Qltb latest threshold).
  { rewrite (existsb_ext_in _ (fun _ => Qltb latest threshold)).
    - apply existsb_const. rewrite arange_nil_iff. lia.
    - intros k _. apply Qltb_proper_l. unfold LinearRegression.line.
      rewrite Ea, Eb. unfold latest. ring. }
  unfold forecast, result. rewrite R, Hex. cbn [fst].
  destruct (Qltb latest threshold) eqn:E.
  - apply Qltb_lt in E. split; split; try discriminate; try reflexivity; intros; try lra.
  - apply Qltb_ge in E. split; split; try discriminate; try reflexivity; intros; try lra.
Qed.

Lemma forecast_of_a_single_sample_window_witness :
  let st := after_readings (with_window_size 1 default_config) [98; 90] in
  result (predict_deterioration 6) (script [] []) st = Ok (deterioration 6 92).
Proof.
  intros st.
  assert (Hws : window_size (prediction_settings (config st)) = 1) by reflexivity.
  assert (Hne : spo2 (data st) <> []) by discriminate.
  assert (Hh : 1 <= 6) by lia.
  apply (proj1 (forecast_of_a_single_sample_window (script [] []) 6 st Hws Hne Hh)).
  vm_compute. reflexivity.
Defined.

(** ** The correlator and the evaluator, once more *)

(** X12.  [check_exacerbation] never raises and never reads the configured
    thresholds.  It answers [True] exactly when the history holds a
    measurement, the label lowered is "essoufflement", "toux" or "fatigue",
    the severity is at least 7 and the last spo2 is below 92; it then appends
    one "exacerbation" Alert of severity "high", and appends nothing when it
    answers [False].  When the configured spo2 threshold is 92, as in the
    default configuration, this is the rule "last spo2 below the configured
    threshold". *)
Theorem correlator_tests_against_92
    (w : World) (entry : SymptomEntry) (st : Monitor) (th : Thresholds) :
  let verdict := result (check_exacerbation entry) w st in
  let st' := exec (check_exacerbation entry) w st in
  (verdict = Ok true \/ verdict = Ok false) /\
  (verdict = Ok true <->
     spo2 (data st) <> [] /\
     In (lower (s_symptom entry)) respiratory_symptoms /\
     7 <= s_severity entry /\
     last (spo2 (data st)) 0 < 92) /\
  (verdict = Ok true ->
   exists a, grows (alerts_only [a]) st st' /\
             a_type a = "exacerbation" /\ a_severity a = "high") /\
  (verdict = Ok false -> grows no_delta st st') /\
  result (check_exacerbation entry) w
         (set_config (with_thresholds th (config st)) st) = verdict /\
  ((spo2_low (alert_thresholds (config st)) == 92)%Q ->
   (verdict = Ok true <->
      spo2 (data st) <> [] /\
      In (lower (s_symptom entry)) respiratory_symptoms /\
      7 <= s_severity entry /\
      (inject_Z (last (spo2 (data st)) 0%Z)
       < spo2_low (alert_thresholds (config st)))%Q)).
Proof.
  intros verdict st'.
  destruct (check_exacerbation_grows w entry st) as (b & st1 & R & Hb & G).
  assert (Ev : verdict = Ok b) by (unfold verdict, result; now rewrite R).
  assert (Es : st' = st1) by (unfold st', exec; now rewrite R).
  assert (Hiff : verdict = Ok true <-> b = true).
  { rewrite Ev. split; [now intros [= ->]|now intros ->]. }
  split; [rewrite Ev; destruct b; auto|].
  split; [now rewrite Hiff|].
  split; [|split; [|split]].
  - intros Hv. apply Hiff in Hv. subst b. rewrite Es.
    eexists. split; [exact G|]. split; reflexivity.
  - intros Hv. rewrite Ev in Hv. injection Hv as ->. rewrite Es. exact G.
  - destruct (check_exacerbation_grows w entry
                (set_config (with_thresholds th (config st)) st))
      as (b2 & st2 & R2 & Hb2 & _).
    unfold result at 1. rewrite R2, Ev. cbn [fst]. f_equal.
    cbn [set_config data] in Hb2.
    destruct b, b2; try reflexivity.
    + apply (proj2 Hb2), (proj1 Hb). reflexivity.
    + symmetry. apply (proj2 Hb), (proj1 Hb2). reflexivity.
  - intros H92. rewrite Hiff, Hb.
    assert (Hlt : last (spo2 (data st)) 0 < 92 <->
                  (inject_Z (last (spo2 (data st)) 0%Z)
                   < spo2_low (alert_thresholds (config st)))%Q).
    { rewrite H92. change 92%Q with (inject_Z 92). rewrite <- Zlt_Qlt. reflexivity. }
    rewrite Hlt. reflexivity.
Qed.

Lemma correlator_tests_against_92_witness :
  let st := after_readings default_config [95; 89] in
  let entry := {| s_timestamp := 0; s_symptom := "Essoufflement";
                  s_severity := 9; s_notes := "" |} in
  result (check_exacerbation entry) (script [] []) st = Ok true.
Proof.
  intros st entry.
  destruct (correlator_tests_against_92 (script [] []) entry st strict_thresholds)
    as (_ & _ & _ & _ & _ & H).
  apply H; [reflexivity|]. repeat split; try discriminate.
  cbn. auto.
Defined.

(** X13.  Nothing is de-duplicated: evaluating the same measurement twice
    in a row appends its alerts twice.  The second run appends alerts of the
    same types, messages and severities as the first, after them; only the
    timestamps may differ. *)
Theorem repeated_evaluation_repeats_alerts
    (w : World) (m : Measurement) (st : Monitor) :
  let st1 := exec (check_measurement_alerts m) w st in
  let st2 := exec (check_measurement_alerts m) w st1 in
  let content := fun a => (a_type a, a_message a, a_severity a) in
  exists new1 new2,
    alerts st1 = alerts st ++ new1 /\
    alerts st2 = alerts st ++ new1 ++ new2 /\
    t_alerts (db st2) = t_alerts (db st) ++ new1 ++ new2 /\
    map content new2 = map content new1 /\
    map a_type new1 = conditions_of (alert_thresholds (config st)) m.
Proof.
  intros st1 st2 content.
  destruct (check_measurement_alerts_run w m st)
    as (s1 & t1 & t2 & t3 & t4 & R1 & A1).
  assert (E1 : st1 = s1) by (unfold st1, exec; now rewrite R1).
  destruct (check_measurement_alerts_run w m st1)
    as (s2 & u1 & u2 & u3 & u4 & R2 & A2).
  assert (E2 : st2 = s2) by (unfold st2, exec; now rewrite R2).
  cbv zeta in A1, A2. rewrite <- E1 in A1. rewrite <- E2 in A2.
  assert (Hc : config st1 = config st) by apply A1.
  rewrite Hc in A2.
  destruct A1 as (Ha1 & Hd1 & _), A2 as (Ha2 & Hd2 & _).
  eexists. eexists. split; [exact Ha1|].
  split; [rewrite Ha2, Ha1, <- app_assoc; reflexivity|].
  split; [rewrite Hd2, Hd1, <- app_assoc; reflexivity|].
  unfold conditions_of.
  destruct (Qltb (inject_Z (m_spo2 m)) _), (Qltb _ (inject_Z (m_heart_rate m))),
    (Qltb _ (inject_Z (m_respiratory_rate m))), (Qltb _ (m_temperature m));
    split; reflexivity.
Qed.

(** ** The alert panel *)

Lemma slice_from_last_5 {A} (l : list A) : slice_from (-5) l = last_n 5 l.
Proof.
  unfold slice_from, last_n. cbn [Z.ltb Z.compare]. f_equal.
  unfold len. lia.
Qed.

Lemma last_map {A B} (f : A -> B) (l : list A) (d : A) :
  last (map f l) (f d) = f (last l d).
Proof.
  induction l as [|a [|b l'] IH]; [reflexivity|reflexivity|].
  change (map f (a :: b :: l')) with (f a :: map f (b :: l')).
  change (last (f a :: map f (b :: l')) (f d)) with (last (map f (b :: l')) (f d)).
  now rewrite IH.
Qed.

Lemma last_any_default {A} (l : list A) (d d' : A) :
  l <> [] -> last l d = last l d'.
Proof.
  induction l as [|a [|b l'] IH]; intros Hne; [contradiction|reflexivity|].
  change (last (a :: b :: l') d) with (last (b :: l') d).
  change (last (a :: b :: l') d') with (last (b :: l') d').
  apply IH. discriminate.
Qed.

Lemma last_skipn {A} (n : nat) (l : list A) (d : A) :
  (n < List.length l)%nat -> last (skipn n l) d = last l d.
Proof.
  revert n. induction l as [|a l IH]; intros n Hn; [cbn in Hn; lia|].
  destruct n as [|n]; [reflexivity|]. cbn [skipn]. cbn [List.length] in Hn.
  rewrite IH by lia. destruct l; [cbn in Hn; lia|reflexivity].
Qed.

(** X14.  The alert panel shows "no alert" only while the alert list is
    empty; otherwise it shows one line per alert for the five most recent
    alerts (all of them when there are fewer), oldest first.  So right after
    an alert is sent, the last line of the panel is the line of that alert. *)
Theorem alert_panel_shows_the_last_five
    (w : World) (alert_type : string) (message : text) (st : Monitor) :
  let line := fun alert => Fmt "{:%H:%M:%S} - {}"
                               [Tm (a_timestamp alert); a_message alert] in
  let st' := exec (send_alert alert_type message) w st in
  (alerts st = [] ->
   update_alert_display st = [Lit "Aucune alerte pour le moment"]) /\
  (alerts st <> [] ->
   update_alert_display st = map line (last_n 5 (alerts st)) /\
   List.length (update_alert_display st) = Nat.min 5 (List.length (alerts st))) /\
  last (update_alert_display st') (Lit "")
    = line (mk_alert (w_clock w (epoch st)) alert_type message).
Proof.
  intros line st'.
  assert (Hdisplay : forall s, alerts s <> [] ->
            update_alert_display s = map line (last_n 5 (alerts s))).
  { intros s Hne. unfold update_alert_display.
    destruct (alerts s) eqn:E; [contradiction|]. now rewrite slice_from_last_5. }
  split; [intros E; unfold update_alert_display; now rewrite E|].
  split.
  - intros Hne. split; [now apply Hdisplay|].
    rewrite (Hdisplay st Hne), length_map. unfold last_n. rewrite length_skipn. lia.
  - destruct (send_alert_run w alert_type message st) as (s1 & R & A).
    assert (Es : st' = s1) by (unfold st', exec; now rewrite R).
    destruct A as (Ha & _). rewrite <- Es in Ha.
    set (a := mk_alert (w_clock w (epoch st)) alert_type message) in *.
    assert (Hne : alerts st' <> [])
      by (rewrite Ha; intros E; now apply app_eq_nil in E as (_ & [=])).
    rewrite (Hdisplay st' Hne).
    assert (Hlast : last (last_n 5 (alerts st')) a = a).
    { unfold last_n. rewrite last_skipn.
      - rewrite Ha. apply last_last.
      - rewrite Ha, length_app. cbn. lia. }
    assert (Hne' : map line (last_n 5 (alerts st')) <> []).
    { intros E. apply map_eq_nil in E. unfold last_n in E.
      apply (f_equal (@List.length Alert)) in E. rewrite length_skipn in E.
      rewrite Ha, length_app in E. cbn in E. lia. }
    rewrite (last_any_default _ (Lit "") (line a) Hne'), last_map, Hlast.
    reflexivity.
Qed.

Lemma alert_panel_shows_the_last_five_witness :
  let st := new_monitor default_config in
  update_alert_display st = [Lit "Aucune alerte pour le moment"].
Proof.
  intros st.
  apply (proj1 (alert_panel_shows_the_last_five (script [] []) "spo2_low"
                  (Lit "SpO2 basse") st)).
  reflexivity.
Defined.

(** ** The report *)





(** ** When the analytics have enough data *)

Lemma detect_anomalies_enough w st :
  10 <= len (spo2 (data st)) ->
  result detect_anomalies w st <> Ok insufficient_for_anomalies.
Proof.
  intros H. unfold result, detect_anomalies.
  rewrite run_bind with (a := st) (st' := st) by reflexivity.
  replace (len (spo2 (data st)) <? 10) with false
    by (symmetry; apply Z.ltb_ge; lia).
  unfold bind, lift, isolation_forest, ret.
  destruct (np_array_T _ _ _); [|discriminate]. cbn.
  destruct (_ >? 2); discriminate.
Qed.

(** X16.  Starting from any history, the analytics have enough data exactly
    when enough measurements have been taken: after [n] more measurements
    the forecaster (with a window and a horizon of one or more) answers
    "insufficient data" exactly while the history, [n] samples longer, is
    shorter than [window_size], and the scorer exactly while it is shorter
    than 10. *)
Theorem analytics_wait_for_enough_measurements
    (w w' : World) (n : nat) (hours : Z) (st : Monitor)
    (Hws : 1 <= window_size (prediction_settings (config st)))
    (Hh : 1 <= hours) :
  let st' := exec (measure n) w st in
  let have := len (spo2 (data st)) + Z.of_nat n in
  (result (predict_deterioration hours) w' st' = Ok insufficient_for_prediction <->
   have < window_size (prediction_settings (config st))) /\
  (result detect_anomalies w' st' = Ok insufficient_for_anomalies <-> have < 10).
Proof.
  intros st' have.
  destruct (measure_run w n st) as (s1 & R & Hd & Hc & _).
  assert (Es : st' = s1) by (unfold st', exec; now rewrite R).
  rewrite <- Es in Hd, Hc.
  destruct (fold_append_channels (readings_from w (epoch st) n) (data st))
    as (_ & Hspo2 & _).
  cbv zeta in Hspo2. rewrite <- Hd in Hspo2.
  assert (Hlen : len (spo2 (data st')) = have).
  { rewrite Hspo2, len_app. unfold have, len at 2.
    now rewrite length_map, length_readings_from. }
  split; split.
  - intros Hres.
    destruct (Z_lt_le_dec have (window_size (prediction_settings (config st))))
      as [Hs|Hs]; [exact Hs|exfalso].
    assert (Rr := predict_deterioration_run w' hours st'). cbv zeta in Rr.
    rewrite Hc, Hlen in Rr. specialize (Rr Hws Hs Hh).
    unfold result in Hres. rewrite Rr in Hres. cbn [fst] in Hres.
    destruct (existsb _ _); discriminate.
  - intros Hs. unfold result.
    rewrite predict_deterioration_short; [reflexivity|]. rewrite Hc, Hlen. exact Hs.
  - intros Hres. destruct (Z_lt_le_dec have 10) as [Hs|Hs]; [exact Hs|exfalso].
    apply (detect_anomalies_enough w' st'); [rewrite Hlen; exact Hs|exact Hres].
  - intros Hs. unfold result.
    rewrite detect_anomalies_short; [reflexivity|]. rewrite Hlen. exact Hs.
Qed.

Lemma analytics_wait_for_enough_measurements_witness :
  result (predict_deterioration 6) (script [] [])
         (exec (measure 3) (script [97; 96; 95] []) (new_monitor default_config))
  = Ok insufficient_for_prediction.
Proof.
  assert (Hws : 1 <= window_size (prediction_settings
                         (config (new_monitor default_config))))
    by (vm_compute; discriminate).
  assert (Hh : 1 <= 6) by lia.
  apply (proj1 (analytics_wait_for_enough_measurements
                  (script [97; 96; 95] []) (script [] []) 3 6
                  (new_monitor default_config) Hws Hh)).
  vm_compute. reflexivity.
Defined.

(** ** Quiet readings and ordered histories *)

(** X17.  A reading fires no condition exactly when its spo2 is not below,
    and its heart rate, respiratory rate and temperature are not above,
    their thresholds (a reading equal to a threshold fires nothing).  For
    such a reading [check_measurement_alerts] leaves the monitor untouched:
    no alert, no line on the console, no call to the environment. *)
Theorem normal_reading_is_silent (w : World) (m : Measurement) (st : Monitor) :
  let th := alert_thresholds (config st) in
  (conditions_of th m = [] <->
   (spo2_low th <= inject_Z (m_spo2 m))%Q /\
   (inject_Z (m_heart_rate m) <= heart_rate_high th)%Q /\
   (inject_Z (m_respiratory_rate m) <= respiratory_rate_high th)%Q /\
   (m_temperature m <= temperature_high th)%Q) /\
  (conditions_of th m = [] -> check_measurement_alerts m w st = (Ok tt, st)).
Proof.
  intros th. unfold conditions_of. rewrite <- !Qltb_ge. split.
  - destruct (Qltb (inject_Z (m_spo2 m)) _), (Qltb _ (inject_Z (m_heart_rate m))),
      (Qltb _ (inject_Z (m_respiratory_rate m))), (Qltb _ (m_temperature m));
      cbn [app]; intuition discriminate.
  - unfold check_measurement_alerts.
    rewrite run_bind with (a := st) (st' := st) by reflexivity. fold th.
    destruct (Qltb (inject_Z (m_spo2 m)) _), (Qltb _ (inject_Z (m_heart_rate m))),
      (Qltb _ (inject_Z (m_respiratory_rate m))), (Qltb _ (m_temperature m));
      cbn [app]; try discriminate.
    reflexivity.
Qed.

Lemma normal_reading_is_silent_witness :
  let m := stamp 0 (reading_of 92) in
  check_measurement_alerts m (script [] []) (new_monitor default_config)
  = (Ok tt, new_monitor default_config).
Proof.
  intros m.
  apply (proj2 (normal_reading_is_silent (script [] []) m
                  (new_monitor default_config))).
  reflexivity.
Defined.

Lemma last_In {A} (l : list A) (d : A) : l <> [] -> In (last l d) l.
Proof.
  induction l as [|a [|b l'] IH]; intros Hne; [contradiction|now left|].
  change (last (a :: b :: l') d) with (last (b :: l') d).
  right. apply IH. discriminate.
Qed.

Lemma sorted_app_readings w (Hmono : forall i j, (i <= j)%nat -> w_clock w i <= w_clock w j) :
  forall n e l,
    Sorted Z.le l ->
    (forall t, In t l -> t <= w_clock w (S e)) ->
    Sorted Z.le (l ++ map m_time (readings_from w e n)).
Proof.
  induction n as [|n IH]; intros e l Hs Hb; cbn [readings_from map].
  - now rewrite app_nil_r.
  - change (m_time (stamp (w_clock w (S e)) (w_sensor w e))) with (w_clock w (S e)).
    rewrite (app_assoc l [w_clock w (S e)] _ : l ++ w_clock w (S e) :: _ = _).
    apply IH.
    + apply (proj2 (Sorted_snoc l (w_clock w (S e)) Hs)).
      destruct l as [|a l']; [cbn; lia|].
      apply Hb, last_In. discriminate.
    + intros t Ht. apply in_app_or in Ht as [Ht|[<-|[]]].
      * apply Z.le_trans with (w_clock w (S e)); [now apply Hb|].
        apply Hmono. lia.
      * apply Hmono. lia.
Qed.

(** X18.  While the clock does not go backwards the history stays in
    timestamp order: if the timestamps in memory are sorted and none is
    later than the clock, they are still sorted after any number of
    measurements. *)
Theorem measurements_stay_sorted_under_monotone_clock
    (w : World) (n : nat) (st : Monitor)
    (Hmono : forall i j, (i <= j)%nat -> w_clock w i <= w_clock w j)
    (Hs : Sorted Z.le (timestamp (data st)))
    (Hb : forall t, In t (timestamp (data st)) -> t <= w_clock w (S (epoch st))) :
  Sorted Z.le (timestamp (data (exec (measure n) w st))).
Proof.
  destruct (measure_run w n st) as (s1 & R & Hd & _).
  unfold exec. rewrite R. cbn [snd]. rewrite Hd.
  destruct (fold_append_channels (readings_from w (epoch st) n) (data st))
    as (Ht & _).
  cbv zeta in Ht. rewrite Ht. now apply sorted_app_readings.
Qed.

Lemma measurements_stay_sorted_under_monotone_clock_witness :
  Sorted Z.le (timestamp (data (exec (measure 3) (script [97; 96; 95] [])
                                     (new_monitor default_config)))).
Proof.
  apply measurements_stay_sorted_under_monotone_clock.
  - intros i j Hij. cbn. lia.
  - constructor.
  - intros t [].
Defined.
